(** * togglelabs: feature-flag handlers, sign-up and the revision approval pass

    A shallow embedding of [pkg/api/handlers]: the sign-up handler
    [PostUser] and the feature-flag handlers [ListFeatureFlags],
    [PostFeatureFlag], [PatchFeatureFlag], [ApproveRevision] and
    [DeleteFeatureFlag].  The document database is an explicit value that
    every handler receives and returns; an early [return] of a handler is
    the [else] branch of a [let?] binding. *)

From Stdlib Require Import ZArith NArith String Ascii Bool Lia.
From stdpp Require Import base list.

Local Open Scope Z_scope.

(** ** [primitive]: object identifiers of the database driver *)

Module Primitive.

(** An [ObjectID] is 12 bytes; it is kept as the number those bytes
    spell, most significant byte first. *)
Definition ObjectID : Type := N.

(** Timestamps are milliseconds since the epoch ([int64]). *)
Definition DateTime : Type := Z.

Definition hex_digit (c : ascii) : option N :=
  let n := N_of_ascii c in
  if ((48 <=? n) && (n <=? 57))%N then Some (n - 48)%N
  else if ((97 <=? n) && (n <=? 102))%N then Some (n - 87)%N
  else if ((65 <=? n) && (n <=? 70))%N then Some (n - 55)%N
  else None.

Fixpoint hex_value (s : string) (acc : N) : option N :=
  match s with
  | EmptyString => Some acc
  | String c rest =>
      match hex_digit c with
      | Some d => hex_value rest (16 * acc + d)%N
      | None => None
      end
  end.

(** [primitive.ObjectIDFromHex]: exactly 24 hexadecimal digits. *)
Definition ObjectIDFromHex (s : string) : option ObjectID :=
  if Nat.eqb (String.length s) 24 then hex_value s 0%N else None.

End Primitive.

Export Primitive.

(** ** Go's [int]: 64-bit two's complement *)

Module GoInt.

Definition max_int : Z := 2 ^ 63 - 1.
Definition min_int : Z := - 2 ^ 63.

Definition wrap (z : Z) : Z := (z + 2 ^ 63) mod 2 ^ 64 - 2 ^ 63.

(** [v++] *)
Definition incr (v : Z) : Z := wrap (v + 1).

End GoInt.

(** ** [storage]: the timestamps embedded in every record *)

Module Storage.

Record Timestamps : Type := mkTimestamps {
  CreatedAt : DateTime;
  UpadtedAt : DateTime;
  DeletedAt : DateTime
}.

Definition set_DeletedAt (t : DateTime) (ts : Timestamps) : Timestamps :=
  {| CreatedAt := CreatedAt ts; UpadtedAt := UpadtedAt ts; DeletedAt := t |}.

End Storage.

(** ** [net/http]: the status codes the handlers answer with *)

Module Http.

Inductive Status : Type :=
| StatusOK
| StatusCreated
| StatusNoContent
| StatusBadRequest
| StatusUnauthorized
| StatusForbidden
| StatusNotFound
| StatusConflict
| StatusInternalServerError.

Definition code (s : Status) : Z :=
  match s with
  | StatusOK => 200
  | StatusCreated => 201
  | StatusNoContent => 204
  | StatusBadRequest => 400
  | StatusUnauthorized => 401
  | StatusForbidden => 403
  | StatusNotFound => 404
  | StatusConflict => 409
  | StatusInternalServerError => 500
  end.

Definition StatusText (s : Status) : string :=
  match s with
  | StatusOK => "OK"
  | StatusCreated => "Created"
  | StatusNoContent => "No Content"
  | StatusBadRequest => "Bad Request"
  | StatusUnauthorized => "Unauthorized"
  | StatusForbidden => "Forbidden"
  | StatusNotFound => "Not Found"
  | StatusConflict => "Conflict"
  | StatusInternalServerError => "Internal Server Error"
  end.

End Http.

Export Http.

(** ** [models]: records and the collections that hold them

    The package [models] is used by the handlers but its declarations
    are outside the sources at hand; its records carry the fields the
    handlers and their tests read and write. *)

Module Models.

(** Modelled from the spec: the constants [models.Draft] and
    [models.Live] are declared outside these sources; the status of a
    revision is one of Draft and Live. *)
Inductive RevisionStatus : Type := Draft | Live.

Definition RevisionStatus_eqb (a b : RevisionStatus) : bool :=
  match a, b with
  | Draft, Draft | Live, Live => true
  | _, _ => false
  end.

(** Modelled from the spec: the membership roles the handlers ask for,
    [models.ReadOnly] and [models.Collaborator]. *)
Inductive PermissionLevelEnum : Type := ReadOnly | Collaborator.

(** [FlagType] is a string type; the request validator restricts it. *)
Definition FlagType : Type := string.

(** Modelled from the spec: [models.Rule] is declared outside these
    sources, a rule is opaque structured condition data.  Here it is
    the list of its (field, value) pairs; the zero rule has none. *)
Definition Rule : Type := list (string * string).

Definition Rule_is_zero (r : Rule) : bool :=
  match r with
  | [] => true
  | _ :: _ => false
  end.

Module Revision.
(** Modelled from the spec: identifier, author reference, status,
    default value, ordered list of rules, creation timestamp.  A flag
    holds its revisions by value. *)
Record t : Type := mk {
  ID : ObjectID;
  UserID : ObjectID;
  Status : RevisionStatus;
  DefaultValue : string;
  Rules : list Rule;
  CreatedAt : DateTime
}.

(** [revisions[index].Status = s] on one element. *)
Definition set_Status (s : RevisionStatus) (r : t) : t :=
  {| ID := ID r; UserID := UserID r; Status := s;
     DefaultValue := DefaultValue r; Rules := Rules r;
     CreatedAt := CreatedAt r |}.
End Revision.

Module FeatureFlag.
(** Modelled from the spec: identifier, owning organization, creator,
    integer version counter (a Go [int]), name, type, ordered sequence
    of revisions, and the embedded timestamps. *)
Record t : Type := mk {
  ID : ObjectID;
  OrganizationID : ObjectID;
  UserID : ObjectID;
  Version : Z;
  Name : string;
  Type_ : FlagType;
  Revisions : list Revision.t;
  Timestamps : Storage.Timestamps
}.

Definition set_ID (i : ObjectID) (f : t) : t :=
  {| ID := i; OrganizationID := OrganizationID f; UserID := UserID f;
     Version := Version f; Name := Name f; Type_ := Type_ f;
     Revisions := Revisions f; Timestamps := Timestamps f |}.

Definition set_Version (v : Z) (f : t) : t :=
  {| ID := ID f; OrganizationID := OrganizationID f; UserID := UserID f;
     Version := v; Name := Name f; Type_ := Type_ f;
     Revisions := Revisions f; Timestamps := Timestamps f |}.

Definition set_Revisions (rs : list Revision.t) (f : t) : t :=
  {| ID := ID f; OrganizationID := OrganizationID f; UserID := UserID f;
     Version := Version f; Name := Name f; Type_ := Type_ f;
     Revisions := rs; Timestamps := Timestamps f |}.

Definition set_Timestamps (ts : Storage.Timestamps) (f : t) : t :=
  {| ID := ID f; OrganizationID := OrganizationID f; UserID := UserID f;
     Version := Version f; Name := Name f; Type_ := Type_ f;
     Revisions := Revisions f; Timestamps := ts |}.
End FeatureFlag.

Module Member.
(** Modelled from the spec: a member of an organization and its role. *)
Record t : Type := mk {
  UserID : ObjectID;
  PermissionLevel : PermissionLevelEnum
}.
End Member.

Module Organization.
(** Modelled from the spec: identifier and a collection of members,
    each with a role. *)
Record t : Type := mk {
  ID : ObjectID;
  Name : string;
  Members : list Member.t
}.
End Organization.

Module User.
(** The fields the sign-up handler and the handler tests read; the
    password is stored hashed. *)
Record t : Type := mk {
  ID : ObjectID;
  Email : string;
  Password : string;
  FirstName : string;
  LastName : string
}.

Definition set_ID (i : ObjectID) (u : t) : t :=
  {| ID := i; Email := Email u; Password := Password u;
     FirstName := FirstName u; LastName := LastName u |}.
End User.

(** The database: one list of documents per collection, in insertion
    order. *)
Record Database : Type := mkDatabase {
  users : list User.t;
  organizations : list Organization.t;
  feature_flags : list FeatureFlag.t
}.

Definition set_users (us : list User.t) (db : Database) : Database :=
  {| users := us; organizations := organizations db;
     feature_flags := feature_flags db |}.

Definition set_feature_flags (fs : list FeatureFlag.t) (db : Database)
  : Database :=
  {| users := users db; organizations := organizations db;
     feature_flags := fs |}.

(** What a handler draws from outside the request: the next object
    identifier, the clock and the salt of the password hash. *)
Record Env : Type := mkEnv {
  NewObjectID : ObjectID;
  Now : DateTime;
  Salt : string
}.

(** Modelled from the spec: [models.NewRevisionRecord] is outside
    these sources; a new revision has status Draft, is authored by the
    acting user and carries a fresh identifier and its creation time. *)
Definition NewRevisionRecord (env : Env) (defaultValue : string)
    (rules : list Rule) (userID : ObjectID) : Revision.t :=
  {| Revision.ID := NewObjectID env;
     Revision.UserID := userID;
     Revision.Status := Draft;
     Revision.DefaultValue := defaultValue;
     Revision.Rules := rules;
     Revision.CreatedAt := Now env |}.

(** *** The user collection *)
Module UserModel.

(** Modelled from the spec: [UserModel.FindByEmail] is outside these
    sources; lookup by email, an error when no user has it. *)
Definition FindByEmail (db : Database) (email : string)
  : option User.t :=
  List.find (fun u => String.eqb (User.Email u) email) (users db).

(** Modelled from the spec: [UserModel.InsertOne] is outside these
    sources; the record is persisted under a new identifier, which
    is returned. *)
Definition InsertOne (env : Env) (db : Database) (ur : User.t)
  : option (Database * ObjectID) :=
  Some (set_users (users db ++ [User.set_ID (NewObjectID env) ur]) db,
        NewObjectID env).

End UserModel.

(** *** The organization collection *)
Module OrganizationModel.

(** Modelled from the spec: [OrganizationModel.FindByID] is outside
    these sources; an error when no organization has the identifier. *)
Definition FindByID (db : Database) (id : ObjectID)
  : option Organization.t :=
  List.find (fun o => N.eqb (Organization.ID o) id) (organizations db).

End OrganizationModel.

(** *** The feature-flag collection *)
Module FeatureFlagModel.

Definition has_id (id : ObjectID) (f : FeatureFlag.t) : bool :=
  N.eqb (FeatureFlag.ID f) id.

(** Modelled from the spec: [FeatureFlagModel.FindByID] is outside
    these sources; load the flag by identifier, an error when there
    is none. *)
Definition FindByID (db : Database) (id : ObjectID)
  : option FeatureFlag.t :=
  List.find (has_id id) (feature_flags db).

(** Modelled from the spec: [FeatureFlagModel.FindMany] is outside
    these sources; a page of the flags that belong to the
    organization, skipping [(page - 1) * limit] of them and
    returning at most [limit], as the sibling listing handler does
    with its find options. *)
Definition FindMany (db : Database) (organizationID : ObjectID)
    (page limit : Z) : option (list FeatureFlag.t) :=
  Some (take (Z.to_nat limit)
          (drop (Z.to_nat ((page - 1) * limit))
             (List.filter
                (fun f => N.eqb (FeatureFlag.OrganizationID f)
                            organizationID)
                (feature_flags db)))).

(** Modelled from the spec: [FeatureFlagModel.InsertOne] is outside
    these sources; the record is persisted under a new identifier. *)
Definition InsertOne (env : Env) (db : Database) (f : FeatureFlag.t)
  : option (Database * ObjectID) :=
  Some (set_feature_flags
          (feature_flags db ++ [FeatureFlag.set_ID (NewObjectID env) f])
          db,
        NewObjectID env).

(** The three update documents the handlers send. *)
Inductive Update : Type :=
| PushRevision (revision : Revision.t)
| SetVersionRevisions (version : Z) (revisions : list Revision.t)
| SetDeletedAt (deleted_at : DateTime).

Definition apply_update (u : Update) (f : FeatureFlag.t)
  : FeatureFlag.t :=
  match u with
  | PushRevision revision =>
      FeatureFlag.set_Revisions (FeatureFlag.Revisions f ++ [revision]) f
  | SetVersionRevisions version revisions =>
      FeatureFlag.set_Revisions revisions
        (FeatureFlag.set_Version version f)
  | SetDeletedAt deleted_at =>
      FeatureFlag.set_Timestamps
        (Storage.set_DeletedAt deleted_at (FeatureFlag.Timestamps f)) f
  end.

Fixpoint update_first (id : ObjectID) (u : Update)
    (fs : list FeatureFlag.t) : list FeatureFlag.t :=
  match fs with
  | [] => []
  | f :: rest =>
      if has_id id f then apply_update u f :: rest
      else f :: update_first id u rest
  end.

(** Modelled from the spec: [FeatureFlagModel.UpdateOne] is outside
    these sources; the update is applied to the document with the
    given [_id], and an unknown identifier is an error (a patch on a
    flag that does not exist answers InternalServerError). *)
Definition UpdateOne (db : Database) (id : ObjectID) (u : Update)
  : option (Database * ObjectID) :=
  match FindByID db id with
  | Some _ =>
      Some (set_feature_flags (update_first id u (feature_flags db)) db,
            id)
  | None => None
  end.

End FeatureFlagModel.

End Models.

Export Models.

(** ** [echo]: what a handler reads from its request context *)

Module Echo.

Record Context (Req : Type) : Type := mkContext {
  (** the caller's identifier, when the token middleware stored one *)
  User : option ObjectID;
  (** path parameters *)
  Params : list (string * string);
  (** query parameters *)
  QueryParams : list (string * string);
  (** the body as [c.Bind] decodes it, [None] when it does not bind *)
  Bound : option Req
}.

Arguments mkContext {Req} _ _ _ _.
Arguments User {Req} _.
Arguments Params {Req} _.
Arguments QueryParams {Req} _.
Arguments Bound {Req} _.

Fixpoint assoc (name : string) (kvs : list (string * string)) : string :=
  match kvs with
  | [] => EmptyString
  | (k, v) :: rest => if String.eqb k name then v else assoc name rest
  end.

(** [c.Param(name)]: the empty string when the route has no such
    parameter. *)
Definition Param {Req} (c : Context Req) (name : string) : string :=
  assoc name (Params c).

Definition QueryParam {Req} (c : Context Req) (name : string) : string :=
  assoc name (QueryParams c).

Definition Bind {Req} (c : Context Req) : option Req := Bound c.

End Echo.

Export Echo.

(** ** [apiutils] *)

Module ApiUtils.

(** Modelled from the spec: [apiutils.GetObjectIDFromContext] is
    outside these sources; the acting user is resolved from the auth
    token, an error when the caller is unidentified. *)
Definition GetObjectIDFromContext {Req} (c : Context Req)
  : option ObjectID :=
  User c.

(** Role ordering: Collaborator implies ReadOnly privileges. *)
Definition privilege (p : PermissionLevelEnum) : nat :=
  match p with
  | ReadOnly => 0
  | Collaborator => 1
  end.

(** The membership role of a user in an organization, if any. *)
Definition membership (userID : ObjectID) (organization : Organization.t)
  : option PermissionLevelEnum :=
  match List.find (fun m => N.eqb (Member.UserID m) userID)
          (Organization.Members organization) with
  | Some m => Some (Member.PermissionLevel m)
  | None => None
  end.

(** Modelled from the spec: [apiutils.UserHasPermission] is outside
    these sources; given the acting user, an organization record and a
    required role level, whether the user's membership role in that
    organization is at least as privileged as required; false when the
    user is not a member. *)
Definition UserHasPermission (userID : ObjectID)
    (organization : Organization.t) (permission : PermissionLevelEnum)
  : bool :=
  match membership userID organization with
  | Some role => Nat.leb (privilege permission) (privilege role)
  | None => false
  end.

End ApiUtils.

Export ApiUtils.

(** ** [apierrors] and the response bodies *)

Module ApiErrors.

(** The machine-readable message codes. *)
Inductive Message : Type :=
| UnauthorizedError
| BadRequestError
| ForbiddenError
| NotFoundError
| EmailConflictError
| InternalServerError.

End ApiErrors.

Export ApiErrors.

Module Common.

Record AuthResponse : Type := mkAuthResponse {
  ID : ObjectID;
  Email : string;
  FirstName : string;
  LastName : string;
  Token : string
}.

End Common.

Module Handlers.

Record SignUpRequest : Type := mkSignUpRequest {
  Email : string;
  Password : string;
  FirstName : string;
  LastName : string
}.

Record SignInRequest : Type := mkSignInRequest {
  SignInEmail : string;
  SignInPassword : string
}.

Record PostFeatureFlagRequest : Type := mkPostFeatureFlagRequest {
  Name : string;
  Type_ : FlagType;
  DefaultValue : string;
  Rules : list Rule
}.

Record PatchFeatureFlagRequest : Type := mkPatchFeatureFlagRequest {
  PatchDefaultValue : string;
  PatchRules : list Rule
}.

Record ListFeatureFlagResponse : Type := mkListFeatureFlagResponse {
  Data : list FeatureFlag.t;
  Page : Z;
  PageSize : Z;
  Total : Z
}.

Inductive Body : Type :=
| ErrorBody (error : string) (message : Message)
| BindErrorBody
| AuthBody (r : Common.AuthResponse)
| ListBody (r : ListFeatureFlagResponse)
| FeatureFlagBody (f : FeatureFlag.t)
| RevisionBody (r : Revision.t)
| NullBody.

Record Response : Type := mkResponse {
  status : Status;
  body : Body
}.

(** [c.JSON(status, body)] *)
Definition JSON (s : Status) (b : Body) : Response :=
  {| status := s; body := b |}.

(** [apierrors.CustomError]: the error body the handler tests expect,
    the status text and the message code. *)
Definition CustomError (s : Status) (m : Message) : Response :=
  JSON s (ErrorBody (StatusText s) m).

(** The validator tags of the two flag requests: [required] rejects
    the zero value, [oneof] lists the accepted types, [dive,required]
    applies [required] to every element of the list. *)
Definition required_string (s : string) : bool :=
  negb (String.eqb s EmptyString).

Definition oneof (options : list string) (s : string) : bool :=
  existsb (String.eqb s) options.

Definition dive_required (rules : list Rule) : bool :=
  forallb (fun r => negb (Rule_is_zero r)) rules.

Definition validate_PostFeatureFlagRequest (r : PostFeatureFlagRequest)
  : bool :=
  required_string (Name r)
  && (required_string (Type_ r)
      && oneof ["boolean"; "json"; "string"; "number"]%string (Type_ r))
  && required_string (DefaultValue r)
  && dive_required (Rules r).

Definition validate_PatchFeatureFlagRequest (r : PatchFeatureFlagRequest)
  : bool :=
  dive_required (PatchRules r).

(** An early [return]: the handler goes on with the value of [e], or
    answers with [r] when [e] is an error. *)
Notation "'let?' x ':=' e 'else' r 'in' k" :=
  (match e with
   | Some x => k
   | None => r
   end)
  (at level 10, x pattern, e at level 100, r at level 100,
   k at level 200, only parsing).

(** *** The approval pass of [ApproveRevision] *)

(** One iteration of the [range] loop: [revision] is the copy the
    range clause takes of element [index], so both tests read the
    status the element had when the iteration began; the two
    assignments go through the index to the element of the slice
    itself. *)
Definition approve_iteration (revisionID : ObjectID)
    (revisions : list Revision.t) (index : nat) : list Revision.t :=
  match revisions !! index with
  | None => revisions
  | Some revision =>
      let revisions :=
        if RevisionStatus_eqb (Revision.Status revision) Live
        then alter (Revision.set_Status Draft) index revisions
        else revisions in
      if N.eqb (Revision.ID revision) revisionID
         && negb (RevisionStatus_eqb (Revision.Status revision) Live)
      then alter (Revision.set_Status Live) index revisions
      else revisions
  end.

(** [for index, revision := range featureFlagRecord.Revisions] *)
Definition approve_range (revisionID : ObjectID)
    (revisions : list Revision.t) : list Revision.t :=
  foldl (approve_iteration revisionID) revisions
    (seq 0 (length revisions)).

(** What the pass does to one revision, as a function of the revision
    alone. *)
Definition approve_one (revisionID : ObjectID) (revision : Revision.t)
  : Revision.t :=
  match Revision.Status revision with
  | Live => Revision.set_Status Draft revision
  | Draft =>
      if N.eqb (Revision.ID revision) revisionID
      then Revision.set_Status Live revision
      else revision
  end.

Definition is_live (revision : Revision.t) : bool :=
  RevisionStatus_eqb (Revision.Status revision) Live.

Definition count_live (revisions : list Revision.t) : nat :=
  length (List.filter is_live revisions).

Section WithCollaborators.

(** The parts of the repository and of its libraries that the
    handlers call and that these sources do not contain. *)

(** [apiutils.GetPaginationParams]: the effective page and page
    size of the two query strings. *)
Variable GetPaginationParams : string -> string -> Z * Z.

(** [models.NewFeatureFlagRecord] *)
Variable NewFeatureFlagRecord :
  Env -> string -> string -> FlagType -> list Rule ->
  ObjectID -> ObjectID -> FeatureFlag.t.

(** [bcrypt.GenerateFromPassword], by salt and password. *)
Variable GenerateFromPassword : string -> string -> option string.

(** [apiutils.CreateJWT] and [config.JWTExpireTime] *)
Variable CreateJWT : ObjectID -> Z -> option string.
Variable JWTExpireTime : Z.

(** Modelled from the spec: [models.NewUserRecord] is outside these
    sources; the password is hashed (salted), the other fields are
    kept. *)
Definition NewUserRecord (env : Env)
    (email password firstName lastName : string) : option User.t :=
  match GenerateFromPassword (Salt env) password with
  | Some hashed =>
      Some {| User.ID := 0%N; User.Email := email;
              User.Password := hashed;
              User.FirstName := firstName;
              User.LastName := lastName |}
  | None => None
  end.

Definition PostUser (env : Env) (db : Database)
    (c : Context SignUpRequest) : Database * Response :=
  let? req := Bind c else (db, JSON StatusBadRequest BindErrorBody) in
  match UserModel.FindByEmail db (Email req) with
  | Some _ => (db, CustomError StatusConflict EmailConflictError)
  | None =>
      let? ur := NewUserRecord env (Email req) (Password req)
                   (FirstName req) (LastName req)
        else (db, CustomError StatusInternalServerError
                    InternalServerError) in
      let? (db', objectID) := UserModel.InsertOne env db ur
        else (db, CustomError StatusInternalServerError
                    InternalServerError) in
      let? token := CreateJWT objectID JWTExpireTime
        else (db', CustomError StatusInternalServerError
                     InternalServerError) in
      (db', JSON StatusCreated
              (AuthBody
                 {| Common.ID := objectID;
                    Common.Email := User.Email ur;
                    Common.FirstName := User.FirstName ur;
                    Common.LastName := User.LastName ur;
                    Common.Token := token |}))
  end.

(** [bcrypt.CompareHashAndPassword], by hash and password. *)
Variable CompareHashAndPassword : string -> string -> bool.

(** Modelled from the spec: the sign-in handler [PostSignIn] is
    outside these sources (its tests are not); input email and
    password, NotFound if the email is unregistered, Unauthorized if
    the password does not match the stored hash, otherwise the same
    response shape as sign-up with Ok status; a body that does not
    bind and a token that cannot be issued are answered as sign-up
    answers them. *)
Definition PostSignIn (db : Database) (c : Context SignInRequest)
  : Response :=
  let? req := Bind c else JSON StatusBadRequest BindErrorBody in
  let? ur := UserModel.FindByEmail db (SignInEmail req)
    else CustomError StatusNotFound NotFoundError in
  if negb (CompareHashAndPassword (User.Password ur) (SignInPassword req))
  then CustomError StatusUnauthorized UnauthorizedError
  else
    let? token := CreateJWT (User.ID ur) JWTExpireTime
      else CustomError StatusInternalServerError InternalServerError in
    JSON StatusOK
      (AuthBody
         {| Common.ID := User.ID ur;
            Common.Email := User.Email ur;
            Common.FirstName := User.FirstName ur;
            Common.LastName := User.LastName ur;
            Common.Token := token |}).

Definition ListFeatureFlags (db : Database) (c : Context unit)
  : Response :=
  let pageQuery := QueryParam c "page" in
  let limitQuery := QueryParam c "page_size" in
  let '(page, limit) := GetPaginationParams pageQuery limitQuery in
  let? userID := GetObjectIDFromContext c
    else CustomError StatusUnauthorized UnauthorizedError in
  let? organizationID := ObjectIDFromHex (Param c "organizationID")
    else CustomError StatusBadRequest BadRequestError in
  let? organization := OrganizationModel.FindByID db organizationID
    else CustomError StatusInternalServerError InternalServerError in
  if negb (UserHasPermission userID organization ReadOnly)
  then CustomError StatusForbidden ForbiddenError
  else
    let? featureFlags :=
      FeatureFlagModel.FindMany db organizationID page limit
      else CustomError StatusInternalServerError InternalServerError in
    JSON StatusOK
      (ListBody {| Data := featureFlags;
                   Page := page;
                   PageSize := limit;
                   Total := Z.of_nat (length featureFlags) |}).

Definition PostFeatureFlag (env : Env) (db : Database)
    (c : Context PostFeatureFlagRequest) : Database * Response :=
  let? userID := GetObjectIDFromContext c
    else (db, CustomError StatusUnauthorized UnauthorizedError) in
  let? organizationID := ObjectIDFromHex (Param c "organizationID")
    else (db, CustomError StatusBadRequest BadRequestError) in
  let? organizationRecord := OrganizationModel.FindByID db organizationID
    else (db, CustomError StatusInternalServerError
                InternalServerError) in
  if negb (UserHasPermission userID organizationRecord Collaborator)
  then (db, CustomError StatusForbidden ForbiddenError)
  else
    let? request := Bind c
      else (db, CustomError StatusBadRequest BadRequestError) in
    if negb (validate_PostFeatureFlagRequest request)
    then (db, CustomError StatusBadRequest BadRequestError)
    else
      let featureFlagRecord :=
        NewFeatureFlagRecord env (Name request) (DefaultValue request)
          (Type_ request) (Rules request) organizationID userID in
      let? (db', _) := FeatureFlagModel.InsertOne env db featureFlagRecord
        else (db, CustomError StatusInternalServerError
                    InternalServerError) in
      (db', JSON StatusCreated (FeatureFlagBody featureFlagRecord)).

(** The bound request goes to [NewRevisionRecord] as it is: this
    handler builds no validator. *)
Definition PatchFeatureFlag (env : Env) (db : Database)
    (c : Context PatchFeatureFlagRequest) : Database * Response :=
  let? userID := GetObjectIDFromContext c
    else (db, CustomError StatusUnauthorized UnauthorizedError) in
  let? organizationID := ObjectIDFromHex (Param c "organizationID")
    else (db, CustomError StatusBadRequest BadRequestError) in
  let? organizationRecord := OrganizationModel.FindByID db organizationID
    else (db, CustomError StatusInternalServerError
                InternalServerError) in
  if negb (UserHasPermission userID organizationRecord Collaborator)
  then (db, CustomError StatusForbidden ForbiddenError)
  else
    let? featureFlagID := ObjectIDFromHex (Param c "featureFlagID")
      else (db, CustomError StatusBadRequest BadRequestError) in
    let? request := Bind c
      else (db, CustomError StatusBadRequest BadRequestError) in
    let revision :=
      NewRevisionRecord env (PatchDefaultValue request)
        (PatchRules request) userID in
    let? (db', _) :=
      FeatureFlagModel.UpdateOne db featureFlagID
        (FeatureFlagModel.PushRevision revision)
      else (db, CustomError StatusInternalServerError
                  InternalServerError) in
    (db', JSON StatusOK (RevisionBody revision)).

Definition ApproveRevision (db : Database) (c : Context unit)
  : Database * Response :=
  let? userID := GetObjectIDFromContext c
    else (db, CustomError StatusUnauthorized UnauthorizedError) in
  let? organizationID := ObjectIDFromHex (Param c "organizationID")
    else (db, CustomError StatusBadRequest BadRequestError) in
  let? organizationRecord := OrganizationModel.FindByID db organizationID
    else (db, CustomError StatusInternalServerError
                InternalServerError) in
  if negb (UserHasPermission userID organizationRecord Collaborator)
  then (db, CustomError StatusForbidden ForbiddenError)
  else
    let? featureFlagID := ObjectIDFromHex (Param c "featureFlagID")
      else (db, CustomError StatusBadRequest BadRequestError) in
    let? revisionID := ObjectIDFromHex (Param c "revisionID")
      else (db, CustomError StatusBadRequest BadRequestError) in
    let? featureFlagRecord := FeatureFlagModel.FindByID db featureFlagID
      else (db, CustomError StatusInternalServerError
                  InternalServerError) in
    let revisions :=
      approve_range revisionID (FeatureFlag.Revisions featureFlagRecord) in
    let version := GoInt.incr (FeatureFlag.Version featureFlagRecord) in
    let featureFlagRecord :=
      FeatureFlag.set_Revisions revisions
        (FeatureFlag.set_Version version featureFlagRecord) in
    let? (db', _) :=
      FeatureFlagModel.UpdateOne db featureFlagID
        (FeatureFlagModel.SetVersionRevisions version revisions)
      else (db, CustomError StatusInternalServerError
                  InternalServerError) in
    (db', JSON StatusOK (FeatureFlagBody featureFlagRecord)).

Definition DeleteFeatureFlag (env : Env) (db : Database)
    (c : Context unit) : Database * Response :=
  let? userID := GetObjectIDFromContext c
    else (db, CustomError StatusUnauthorized UnauthorizedError) in
  let? organizationID := ObjectIDFromHex (Param c "organizationID")
    else (db, CustomError StatusBadRequest BadRequestError) in
  let? organizationRecord := OrganizationModel.FindByID db organizationID
    else (db, CustomError StatusInternalServerError
                InternalServerError) in
  if negb (UserHasPermission userID organizationRecord Collaborator)
  then (db, CustomError StatusForbidden ForbiddenError)
  else
    let? featureFlagID := ObjectIDFromHex (Param c "featureFlagID")
      else (db, CustomError StatusBadRequest BadRequestError) in
    let? (db', objectID) :=
      FeatureFlagModel.UpdateOne db featureFlagID
        (FeatureFlagModel.SetDeletedAt (Now env))
      else (db, CustomError StatusInternalServerError
                  InternalServerError) in
    (db', JSON StatusNoContent NullBody).

End WithCollaborators.

End Handlers.

Export Handlers.

(** ** The outcome of an approval and the shape of a request *)

Module Outcome.

(** The record [ApproveRevision] writes back and answers with, for
    the flag it loaded and the revision identifier of the route. *)
Definition approved (revisionID : ObjectID) (f : FeatureFlag.t)
  : FeatureFlag.t :=
  FeatureFlag.set_Revisions
    (approve_range revisionID (FeatureFlag.Revisions f))
    (FeatureFlag.set_Version (GoInt.incr (FeatureFlag.Version f)) f).

(** The caller is identified. *)
Definition identified {Req} (c : Context Req) : Prop :=
  exists userID, GetObjectIDFromContext c = Some userID.

(** The organization identifier of the route is well-formed and no
    stored organization has it. *)
Definition organization_unknown {Req} (db : Database) (c : Context Req)
  : Prop :=
  exists organizationID,
    ObjectIDFromHex (Param c "organizationID") = Some organizationID
    /\ OrganizationModel.FindByID db organizationID = None.

(** Some stored user has the email. *)
Definition registered (db : Database) (email : string) : Prop :=
  exists u, In u (users db) /\ User.Email u = email.

(** The flag a route names, as stored. *)
Definition target_flag {Req} (db : Database) (c : Context Req)
  : option FeatureFlag.t :=
  match ObjectIDFromHex (Param c "featureFlagID") with
  | Some featureFlagID => FeatureFlagModel.FindByID db featureFlagID
  | None => None
  end.

(** The revision identifier a route names. *)
Definition target_revision {Req} (c : Context Req) : option ObjectID :=
  ObjectIDFromHex (Param c "revisionID").

End Outcome.

Export Outcome.

(** ** The example handler: a paginated listing without a caller *)

Module Examples.

Record ExampleResponse : Type := mkExampleResponse {
  ID : ObjectID;
  Name : string
}.

Record ExampleListResponse : Type := mkExampleListResponse {
  Data : list ExampleResponse;
  Page : Z;
  PageSize : Z;
  Total : Z
}.

(** What [GetExamples] answers with: the text of an error, or a page. *)
Inductive ExampleBody : Type :=
| ErrorText
| PageBody (r : ExampleListResponse).

Record ExampleAnswer : Type := mkExampleAnswer {
  status : Status;
  body : ExampleBody
}.

Section WithCursor.

(** [api_utils.GetPaginationParams] *)
Variable GetPaginationParams : string -> string -> Z * Z.

(** The driver's cursor over the ["example"] collection:
    [collection.Find] with the skip and the limit of the find options,
    [cursor.Next], which tells whether a document is there and moves
    the cursor, and [cursor.All], which decodes what the cursor has
    left. *)
Variable Cursor : Type.
Variable Find : Z -> Z -> option Cursor.
Variable Next : Cursor -> bool * Cursor.
Variable All : Cursor -> option (list ExampleResponse).

Definition GetExamples (c : Context unit) : ExampleAnswer :=
  let pageQuery := QueryParam c "page" in
  let limitQuery := QueryParam c "page_size" in
  let '(page, limit) := GetPaginationParams pageQuery limitQuery in
  let? cursor := Find (GoInt.wrap ((page - 1) * limit)) limit
    else {| status := StatusInternalServerError; body := ErrorText |} in
  let records := [] in
  let '(more, cursor) := Next cursor in
  if more
  then
    let? records := All cursor
      else {| status := StatusInternalServerError; body := ErrorText |} in
    {| status := StatusOK;
       body := PageBody {| Data := records; Page := page; PageSize := limit;
                           Total := Z.of_nat (length records) |} |}
  else
    {| status := StatusOK;
       body := PageBody {| Data := records; Page := page; PageSize := limit;
                           Total := Z.of_nat (length records) |} |}.

End WithCursor.

End Examples.

(** ** Requests that a handler turns away *)

Module Refusal.

(** The caller is identified, the organization of the route is stored,
    and the caller's role in it is below [level]. *)
Definition lacks_permission {Req} (db : Database) (c : Context Req)
    (level : PermissionLevelEnum) : Prop :=
  exists userID organizationID organization,
    GetObjectIDFromContext c = Some userID
    /\ ObjectIDFromHex (Param c "organizationID") = Some organizationID
    /\ OrganizationModel.FindByID db organizationID = Some organization
    /\ UserHasPermission userID organization level = false.

(** The caller is identified, the organization of the route is stored,
    and the caller's role in it is at least [level]. *)
Definition has_permission {Req} (db : Database) (c : Context Req)
    (level : PermissionLevelEnum) : Prop :=
  exists userID organizationID organization,
    GetObjectIDFromContext c = Some userID
    /\ ObjectIDFromHex (Param c "organizationID") = Some organizationID
    /\ OrganizationModel.FindByID db organizationID = Some organization
    /\ UserHasPermission userID organization level = true.


End Refusal.

Export Refusal.

(** ** A small database to run the handlers on *)

Module Sample.

Local Open Scope string_scope.

Definition alice : ObjectID := 161%N.
Definition bob : ObjectID := 162%N.
Definition carol : ObjectID := 163%N.

Definition acme : Organization.t :=
  {| Organization.ID := 16%N;
     Organization.Name := "acme";
     Organization.Members :=
       [ {| Member.UserID := alice; Member.PermissionLevel := Collaborator |};
         {| Member.UserID := bob; Member.PermissionLevel := ReadOnly |} ] |}.

Definition first_revision : Revision.t :=
  {| Revision.ID := 1%N; Revision.UserID := alice;
     Revision.Status := Live; Revision.DefaultValue := "false";
     Revision.Rules := []; Revision.CreatedAt := 1000 |}.

Definition second_revision : Revision.t :=
  {| Revision.ID := 2%N; Revision.UserID := alice;
     Revision.Status := Draft; Revision.DefaultValue := "true";
     Revision.Rules := []; Revision.CreatedAt := 2000 |}.

Definition dark_mode : FeatureFlag.t :=
  {| FeatureFlag.ID := 241%N;
     FeatureFlag.OrganizationID := 16%N;
     FeatureFlag.UserID := alice;
     FeatureFlag.Version := 1;
     FeatureFlag.Name := "dark-mode";
     FeatureFlag.Type_ := "boolean";
     FeatureFlag.Revisions := [first_revision; second_revision];
     FeatureFlag.Timestamps := Storage.mkTimestamps 1000 2000 0 |}.

Definition db : Database :=
  {| users := []; organizations := [acme]; feature_flags := [dark_mode] |}.

Definition env : Env :=
  {| NewObjectID := 3%N; Now := 3000; Salt := "salt" |}.

Definition acme_hex : string := "000000000000000000000010".
Definition dark_mode_hex : string := "0000000000000000000000f1".
Definition unknown_hex : string := "0000000000000000000000ff".

(** A request on [dark_mode] of [acme] from [user], naming the
    revision [revision_hex]. *)
Definition request {Req} (user : option ObjectID) (revision_hex : string)
    (bound : option Req) : Context Req :=
  mkContext user
    [("organizationID", acme_hex); ("featureFlagID", dark_mode_hex);
     ("revisionID", revision_hex)]
    [("page", "1"); ("page_size", "10")]
    bound.

(** A request on an organization that is not stored. *)
Definition stray_request {Req} (user : option ObjectID)
    (bound : option Req) : Context Req :=
  mkContext user
    [("organizationID", unknown_hex); ("featureFlagID", dark_mode_hex);
     ("revisionID", "000000000000000000000002")]
    []
    bound.

(** Approvals by [alice] of the Draft revision, of the Live revision
    and of a revision [dark_mode] does not have. *)
Definition approve_second : Context unit :=
  request (Some alice) "000000000000000000000002" (Some tt).

Definition approve_first : Context unit :=
  request (Some alice) "000000000000000000000001" (Some tt).

Definition approve_missing : Context unit :=
  request (Some alice) "000000000000000000000009" (Some tt).


(** Stand-ins for the libraries the handlers are run with: a hash
    that tags the password, a token that does not depend on the
    expiry, and page 1 of 10 for every query. *)
Definition tag_hash (salt password : string) : option string :=
  Some ("$2a$" ++ password).

Definition tag_check (hashed password : string) : bool :=
  String.eqb hashed ("$2a$" ++ password).

Definition fixed_token (id : ObjectID) (expire : Z) : option string :=
  Some "token".

Definition first_page (pageQuery limitQuery : string) : Z * Z := (1, 10).

Definition blank_flag (env : Env) (name defaultValue : string)
    (type : FlagType) (rules : list Rule)
    (organizationID userID : ObjectID) : FeatureFlag.t :=
  {| FeatureFlag.ID := 0%N;
     FeatureFlag.OrganizationID := organizationID;
     FeatureFlag.UserID := userID;
     FeatureFlag.Version := 1;
     FeatureFlag.Name := name;
     FeatureFlag.Type_ := type;
     FeatureFlag.Revisions := [];
     FeatureFlag.Timestamps := Storage.mkTimestamps (Now env) (Now env) 0 |}.

(** The sign-up and sign-in requests of the handler tests. *)
Definition fizi : SignUpRequest :=
  {| Email := "fizi@gmail.com"; Password := "123123";
     FirstName := "fizi"; LastName := "valores" |}.

Definition signup : Context SignUpRequest :=
  mkContext None [] [] (Some fizi).

Definition fizi_record : User.t :=
  {| User.ID := 3%N; User.Email := "fizi@gmail.com";
     User.Password := "$2a$123123";
     User.FirstName := "fizi"; User.LastName := "valores" |}.

Definition db_with_fizi : Database :=
  {| users := [fizi_record]; organizations := [acme];
     feature_flags := [dark_mode] |}.

Definition signin (password : string) : Context SignInRequest :=
  mkContext None [] []
    (Some {| SignInEmail := "fizi@gmail.com";
             SignInPassword := password |}).

(** [acme] before its first flag. *)
Definition db_without_flags : Database :=
  {| users := []; organizations := [acme]; feature_flags := [] |}.

Definition listing : Context unit := request (Some bob) "" (Some tt).

(** A patch whose only rule is the zero rule, and a creation with the
    same rules. *)
Definition zero_rule_patch : PatchFeatureFlagRequest :=
  {| PatchDefaultValue := "true"; PatchRules := [[]] |}.

Definition patching : Context PatchFeatureFlagRequest :=
  request (Some alice) "" (Some zero_rule_patch).

Definition zero_rule_post : PostFeatureFlagRequest :=
  {| Name := "beta"; Type_ := "boolean"; DefaultValue := "true";
     Rules := [[]] |}.

Definition posting : Context PostFeatureFlagRequest :=
  request (Some alice) "" (Some zero_rule_post).

Definition sound_patch : PatchFeatureFlagRequest :=
  {| PatchDefaultValue := "true";
     PatchRules := [[("country", "BR")]] |}.

Definition proposing : Context PatchFeatureFlagRequest :=
  request (Some alice) "" (Some sound_patch).


(** [acme] with a second flag, listed one flag per page. *)
Definition beta : FeatureFlag.t :=
  {| FeatureFlag.ID := 242%N;
     FeatureFlag.OrganizationID := 16%N;
     FeatureFlag.UserID := alice;
     FeatureFlag.Version := 1;
     FeatureFlag.Name := "beta";
     FeatureFlag.Type_ := "boolean";
     FeatureFlag.Revisions := [];
     FeatureFlag.Timestamps := Storage.mkTimestamps 1000 1000 0 |}.

Definition db_two_flags : Database :=
  {| users := []; organizations := [acme];
     feature_flags := [dark_mode; beta] |}.

Definition one_per_page (pageQuery limitQuery : string) : Z * Z := (1, 1).

(** A flag of another organization, stored beside [dark_mode]. *)
Definition roadmap : FeatureFlag.t :=
  {| FeatureFlag.ID := 243%N;
     FeatureFlag.OrganizationID := 17%N;
     FeatureFlag.UserID := carol;
     FeatureFlag.Version := 4;
     FeatureFlag.Name := "roadmap";
     FeatureFlag.Type_ := "json";
     FeatureFlag.Revisions := [second_revision];
     FeatureFlag.Timestamps := Storage.mkTimestamps 500 600 0 |}.

Definition db_with_roadmap : Database :=
  {| users := []; organizations := [acme];
     feature_flags := [dark_mode; roadmap] |}.

(** A request of [acme]'s route on [roadmap]. *)
Definition roadmap_request {Req} (user : option ObjectID)
    (bound : option Req) : Context Req :=
  mkContext user
    [("organizationID", acme_hex);
     ("featureFlagID", "0000000000000000000000f3");
     ("revisionID", "000000000000000000000002")]
    []
    bound.

(** A request whose organization identifier is not 24 digits long. *)
Definition short_request {Req} (user : option ObjectID)
    (bound : option Req) : Context Req :=
  mkContext user
    [("organizationID", "acme"); ("featureFlagID", dark_mode_hex)]
    []
    bound.

(** A token service that is down. *)
Definition no_token (id : ObjectID) (expire : Z) : option string := None.

Definition sound_post : PostFeatureFlagRequest :=
  {| Name := "beta"; Type_ := "boolean"; DefaultValue := "true";
     Rules := [[("country", "BR")]] |}.

Definition creating : Context PostFeatureFlagRequest :=
  request (Some alice) "" (Some sound_post).

Definition deleting : Context unit := request (Some alice) "" (Some tt).

Definition later : Env :=
  {| NewObjectID := 4%N; Now := 4000; Salt := "pepper" |}.

End Sample.

(** * Properties *)

(** ** The approval pass is a map over the revisions *)

Module ApprovalPass.

Lemma set_Status_same (r : Revision.t) :
  Revision.set_Status (Revision.Status r) r = r.
Proof. by destruct r. Qed.

Lemma approve_iteration_insert revisionID
    (revisions : list Revision.t) index revision :
  revisions !! index = Some revision ->
  approve_iteration revisionID revisions index
  = <[index := approve_one revisionID revision]> revisions.
Proof.
  intros Hlook. unfold approve_iteration, approve_one. rewrite Hlook.
  assert (Halter : forall s,
    alter (Revision.set_Status s) index revisions
    = <[index := Revision.set_Status s revision]> revisions).
  { intros s. apply list_eq. intros j.
    destruct (decide (index = j)) as [<-|Hne].
    - rewrite list_lookup_alter_eq, Hlook. simpl.
      rewrite list_lookup_insert_eq; [done|]. by eapply lookup_lt_Some.
    - by rewrite list_lookup_alter_ne, list_lookup_insert_ne. }
  destruct (Revision.Status revision) eqn:Hst; simpl.
  - rewrite andb_true_r.
    destruct (N.eqb (Revision.ID revision) revisionID); [apply Halter|].
    symmetry. by apply list_insert_id.
  - rewrite andb_false_r. apply Halter.
Qed.

Lemma approve_prefix revisionID (revisions : list Revision.t) k :
  (k <= length revisions)%nat ->
  foldl (approve_iteration revisionID) revisions (seq 0 k)
  = map (approve_one revisionID) (take k revisions) ++ drop k revisions.
Proof.
  induction k as [|k IH]; intros Hk; [done|].
  destruct (lookup_lt_is_Some_2 revisions k) as [revision Hlook]; [lia|].
  rewrite seq_S, foldl_app, IH by lia. simpl.
  rewrite (approve_iteration_insert _ _ _ revision).
  - rewrite (take_S_r _ _ _ Hlook), map_app, <- app_assoc. simpl.
    rewrite (drop_S _ _ _ Hlook).
    assert (Hlen : length (map (approve_one revisionID) (take k revisions)) = k).
    { rewrite length_map, length_take. lia. }
    rewrite insert_app_r_alt by lia.
    by rewrite Hlen, Nat.sub_diag.
  - rewrite lookup_app_r; rewrite length_map, length_take; [|lia].
    rewrite lookup_drop. rewrite <- Hlook. f_equal. lia.
Qed.

(** The loop of the handler and the element-wise description agree. *)
Lemma approve_range_map revisionID (revisions : list Revision.t) :
  approve_range revisionID revisions
  = map (approve_one revisionID) revisions.
Proof.
  unfold approve_range. rewrite approve_prefix by done.
  by rewrite firstn_all, drop_all, app_nil_r.
Qed.

End ApprovalPass.

(** ** The feature-flag collection under [UpdateOne] *)

Module StoreFacts.

Import FeatureFlagModel.

Lemma apply_update_ID u f :
  FeatureFlag.ID (apply_update u f) = FeatureFlag.ID f.
Proof. by destruct u. Qed.

Lemma find_update_first id u fs f :
  List.find (has_id id) fs = Some f ->
  List.find (has_id id) (update_first id u fs) = Some (apply_update u f).
Proof.
  induction fs as [|g fs IH]; simpl; [done|].
  destruct (has_id id g) eqn:Hg; simpl.
  - intros [= ->]. unfold has_id in *.
    by rewrite apply_update_ID, Hg.
  - rewrite Hg. apply IH.
Qed.

Lemma find_update_first_other id id' u fs :
  id' <> id ->
  List.find (has_id id') (update_first id u fs)
  = List.find (has_id id') fs.
Proof.
  intros Hne. induction fs as [|g fs IH]; simpl; [done|].
  destruct (has_id id g) eqn:Hg; simpl.
  - unfold has_id in *. rewrite apply_update_ID.
    apply N.eqb_eq in Hg.
    destruct (N.eqb_spec (FeatureFlag.ID g) id'); [congruence|done].
  - by rewrite IH.
Qed.

(** A successful update rewrote the document with that [_id], and
    nothing else. *)
Lemma UpdateOne_Some db id u db' objectID :
  UpdateOne db id u = Some (db', objectID) ->
  exists f,
    FindByID db id = Some f
    /\ objectID = id
    /\ FindByID db' id = Some (apply_update u f)
    /\ (forall id', id' <> id -> FindByID db' id' = FindByID db id')
    /\ users db' = users db
    /\ organizations db' = organizations db.
Proof.
  unfold UpdateOne. destruct (FindByID db id) as [f|] eqn:Hf; [|done].
  intros [= <- <-]. exists f. repeat split; [|].
  - by apply find_update_first.
  - intros id' Hne. by apply find_update_first_other.
Qed.

Lemma UpdateOne_found db id u f :
  FindByID db id = Some f ->
  exists db', UpdateOne db id u = Some (db', id).
Proof. unfold UpdateOne. intros ->. eauto. Qed.

End StoreFacts.

(** ** What the approval pass leaves Live *)

Module ApprovalFacts.

Import ApprovalPass.

Lemma is_live_approve_one revisionID r :
  is_live (approve_one revisionID r)
  = N.eqb (Revision.ID r) revisionID && negb (is_live r).
Proof.
  unfold is_live, approve_one.
  destruct (Revision.Status r) eqn:Hst; simpl.
  - rewrite andb_true_r.
    destruct (N.eqb (Revision.ID r) revisionID); simpl; by rewrite ?Hst.
  - by rewrite andb_false_r.
Qed.

Lemma is_live_Status r : is_live r = true <-> Revision.Status r = Live.
Proof. unfold is_live. by destruct (Revision.Status r). Qed.

Lemma approve_one_ID revisionID r :
  Revision.ID (approve_one revisionID r) = Revision.ID r.
Proof.
  unfold approve_one.
  destruct (Revision.Status r); [|done].
  by destruct (N.eqb (Revision.ID r) revisionID).
Qed.

Lemma approve_one_target r :
  Revision.Status r = Draft ->
  approve_one (Revision.ID r) r = Revision.set_Status Live r.
Proof. unfold approve_one. intros ->. by rewrite N.eqb_refl. Qed.

Lemma approve_one_live revisionID r :
  Revision.Status r = Live ->
  approve_one revisionID r = Revision.set_Status Draft r.
Proof. unfold approve_one. by intros ->. Qed.

Lemma approve_one_other revisionID r :
  Revision.ID r <> revisionID ->
  approve_one revisionID r = Revision.set_Status Draft r.
Proof.
  unfold approve_one. intros Hne.
  destruct (Revision.Status r) eqn:Hst; [|done].
  destruct (N.eqb_spec (Revision.ID r) revisionID); [done|].
  by rewrite <- Hst, set_Status_same.
Qed.

(** Identifiers that do not repeat identify the revisions of a list. *)
Lemma unique_ID (revisions : list Revision.t) r1 r2 :
  NoDup (map Revision.ID revisions) ->
  In r1 revisions -> In r2 revisions ->
  Revision.ID r1 = Revision.ID r2 -> r1 = r2.
Proof.
  induction revisions as [|r revisions IH]; simpl; [done|].
  intros Hnd [->|H1] [->|H2] Heq; try done.
  - apply NoDup_cons in Hnd as [Hnot _]. exfalso. apply Hnot.
    rewrite Heq. apply list_elem_of_In. by apply in_map.
  - apply NoDup_cons in Hnd as [Hnot _]. exfalso. apply Hnot.
    rewrite <- Heq. apply list_elem_of_In. by apply in_map.
  - apply NoDup_cons in Hnd as [_ Hnd]. by apply IH.
Qed.

Lemma count_live_none revisionID (revisions : list Revision.t) :
  (forall r, In r revisions ->
     Revision.ID r = revisionID -> Revision.Status r = Live) ->
  count_live (map (approve_one revisionID) revisions) = 0%nat.
Proof.
  unfold count_live.
  induction revisions as [|r revisions IH]; simpl; intros Hall; [done|].
  rewrite is_live_approve_one.
  destruct (N.eqb_spec (Revision.ID r) revisionID) as [Heq|Hne]; simpl.
  - assert (Hlive : is_live r = true).
    { apply is_live_Status. by apply Hall; [left|]. }
    rewrite Hlive. simpl. apply IH. intros r' Hin. apply Hall. by right.
  - apply IH. intros r' Hin. apply Hall. by right.
Qed.

Lemma count_live_target (revisions : list Revision.t) R :
  NoDup (map Revision.ID revisions) ->
  In R revisions -> Revision.Status R = Draft ->
  count_live (map (approve_one (Revision.ID R)) revisions) = 1%nat.
Proof.
  induction revisions as [|r revisions IH]; simpl; [done|].
  intros Hnd Hin Hdraft.
  apply NoDup_cons in Hnd as [Hnot Hnd].
  change (count_live (?x :: ?l))
    with (length (if is_live x then x :: List.filter is_live l
                  else List.filter is_live l)).
  rewrite is_live_approve_one.
  destruct Hin as [->|Hin].
  - rewrite N.eqb_refl. simpl.
    assert (Hl : is_live R = false).
    { unfold is_live. by rewrite Hdraft. }
    rewrite Hl. simpl. f_equal.
    apply (count_live_none (Revision.ID R) revisions).
    intros r' Hin' Heq. exfalso. apply Hnot. rewrite <- Heq.
    apply list_elem_of_In. by apply in_map.
  - destruct (N.eqb_spec (Revision.ID r) (Revision.ID R)) as [Heq|Hne].
    + exfalso. apply Hnot. rewrite Heq.
      apply list_elem_of_In. by apply in_map.
    + simpl. by apply IH.
Qed.

Lemma incr_in_range v :
  GoInt.min_int <= v < GoInt.max_int -> GoInt.incr v = v + 1.
Proof.
  unfold GoInt.incr, GoInt.wrap, GoInt.min_int, GoInt.max_int.
  intros Hv. rewrite Z.mod_small; lia.
Qed.

End ApprovalFacts.

(** ** Reading a handler's answer back *)

(** Split the handler equation [H] along the early returns it took. *)
Ltac split_returns H :=
  repeat match type of H with
    | context [match ?e with _ => _ end] =>
        let E := fresh "E" in destruct e eqn:E
    end.

Module HandlerFacts.

Import StoreFacts.

Lemma negb_false_true b : negb b = false -> b = true.
Proof. by destruct b. Qed.

(** An approval answers Ok only after the flag was loaded, passed
    through the approval pass and written back. *)
Lemma ApproveRevision_OK db c db' resp :
  ApproveRevision db c = (db', resp) ->
  status resp = StatusOK ->
  exists userID organizationID organizationRecord featureFlagID
         revisionID f,
    GetObjectIDFromContext c = Some userID
    /\ ObjectIDFromHex (Param c "organizationID") = Some organizationID
    /\ OrganizationModel.FindByID db organizationID
       = Some organizationRecord
    /\ UserHasPermission userID organizationRecord Collaborator = true
    /\ ObjectIDFromHex (Param c "featureFlagID") = Some featureFlagID
    /\ ObjectIDFromHex (Param c "revisionID") = Some revisionID
    /\ FeatureFlagModel.FindByID db featureFlagID = Some f
    /\ resp = JSON StatusOK (FeatureFlagBody (approved revisionID f))
    /\ FeatureFlagModel.FindByID db' featureFlagID
       = Some (approved revisionID f).
Proof.
  unfold ApproveRevision. intros H Hst.
  split_returns H; injection H as <- <-; try discriminate Hst.
  match goal with
  | E : FeatureFlagModel.UpdateOne _ _ _ = Some _ |- _ =>
      apply UpdateOne_Some in E as (f' & Hf' & _ & Hafter & _)
  end.
  match goal with
  | E : FeatureFlagModel.FindByID _ _ = Some ?f |- _ =>
      rewrite E in Hf'; injection Hf' as <-
  end.
  do 6 eexists. repeat split; eauto using negb_false_true.
Qed.

End HandlerFacts.

(** ** When the handlers answer Ok *)

Module Success.

Import StoreFacts.

(** An approval by a Collaborator of the organization, on a stored flag,
    with well-formed identifiers, answers Ok with the approved flag. *)
Lemma ApproveRevision_succeeds db c userID organizationID
    organizationRecord featureFlagID revisionID f :
  GetObjectIDFromContext c = Some userID ->
  ObjectIDFromHex (Param c "organizationID") = Some organizationID ->
  OrganizationModel.FindByID db organizationID = Some organizationRecord ->
  UserHasPermission userID organizationRecord Collaborator = true ->
  ObjectIDFromHex (Param c "featureFlagID") = Some featureFlagID ->
  ObjectIDFromHex (Param c "revisionID") = Some revisionID ->
  FeatureFlagModel.FindByID db featureFlagID = Some f ->
  exists db',
    ApproveRevision db c
    = (db', JSON StatusOK (FeatureFlagBody (approved revisionID f))).
Proof.
  intros Huser Horg Hfound Hperm Hflag Hrev Hf. unfold ApproveRevision.
  rewrite Huser, Horg, Hfound, Hperm, Hflag, Hrev, Hf. simpl.
  unfold FeatureFlagModel.UpdateOne. rewrite Hf. eauto.
Qed.

(** A patch by a Collaborator of the organization, on a stored flag,
    answers Ok with the new revision whatever the bound request holds:
    its rules are not looked at. *)
Lemma PatchFeatureFlag_succeeds env db c userID organizationID
    organizationRecord featureFlagID request f :
  GetObjectIDFromContext c = Some userID ->
  ObjectIDFromHex (Param c "organizationID") = Some organizationID ->
  OrganizationModel.FindByID db organizationID = Some organizationRecord ->
  UserHasPermission userID organizationRecord Collaborator = true ->
  ObjectIDFromHex (Param c "featureFlagID") = Some featureFlagID ->
  Bind c = Some request ->
  FeatureFlagModel.FindByID db featureFlagID = Some f ->
  exists db',
    PatchFeatureFlag env db c
    = (db', JSON StatusOK
              (RevisionBody
                 (NewRevisionRecord env (PatchDefaultValue request)
                    (PatchRules request) userID)))
    /\ FeatureFlagModel.FindByID db' featureFlagID
       = Some (FeatureFlag.set_Revisions
                 (FeatureFlag.Revisions f
                  ++ [NewRevisionRecord env (PatchDefaultValue request)
                        (PatchRules request) userID]) f).
Proof.
  intros Huser Horg Hfound Hperm Hflag Hbind Hf. unfold PatchFeatureFlag.
  rewrite Huser, Horg, Hfound, Hperm, Hflag, Hbind. simpl.
  destruct (UpdateOne_found db featureFlagID
              (FeatureFlagModel.PushRevision
                 (NewRevisionRecord env (PatchDefaultValue request)
                    (PatchRules request) userID)) f Hf) as [db' Hupd].
  rewrite Hupd. exists db'. split; [done|].
  apply UpdateOne_Some in Hupd as (f0 & Hf0 & _ & Hafter & _).
  rewrite Hf in Hf0. injection Hf0 as <-. exact Hafter.
Qed.


End Success.

(** ** Revision approval *)

Module Approval.

Import ApprovalPass ApprovalFacts HandlerFacts.

(** The flag an approval answered with, in terms of the flag it
    found. *)
Lemma approved_flag db c db' resp f revisionID :
  ApproveRevision db c = (db', resp) ->
  status resp = StatusOK ->
  target_flag db c = Some f ->
  target_revision c = Some revisionID ->
  body resp = FeatureFlagBody (approved revisionID f)
  /\ target_flag db' c = Some (approved revisionID f).
Proof.
  intros H Hst Hflag Hrev.
  destruct (ApproveRevision_OK _ _ _ _ H Hst)
    as (u & o & org & fid & rid & f0 & _ & _ & _ & _
        & Hfid & Hrid & Hf0 & -> & Hafter).
  unfold target_flag, target_revision in *.
  rewrite Hfid in *. rewrite Hf0 in Hflag. injection Hflag as ->.
  rewrite Hrid in Hrev. injection Hrev as ->. done.
Qed.

Lemma approved_Revisions revisionID f :
  FeatureFlag.Revisions (approved revisionID f)
  = map (approve_one revisionID) (FeatureFlag.Revisions f).
Proof. unfold approved. simpl. apply approve_range_map. Qed.

Lemma approved_Version revisionID f :
  GoInt.min_int <= FeatureFlag.Version f < GoInt.max_int ->
  FeatureFlag.Version (approved revisionID f) = FeatureFlag.Version f + 1.
Proof. intros Hv. unfold approved. simpl. by apply incr_in_range. Qed.

(** With identifiers that do not repeat, approving a revision that is
    Live leaves no revision Live. *)
Lemma approve_live_none_live (revisions : list Revision.t) R :
  NoDup (map Revision.ID revisions) ->
  In R revisions -> Revision.Status R = Live ->
  count_live (map (approve_one (Revision.ID R)) revisions) = 0%nat.
Proof.
  intros Hnd HR HRs. apply count_live_none. intros r Hin Heq.
  by rewrite (unique_ID _ r R Hnd Hin HR Heq).
Qed.

(** C1. On a flag whose revisions (with identifiers that do not
    repeat) contain a Live revision [L] and a Draft revision [R], a
    successful approval of [R] answers with, and stores, a revision
    list in which exactly one revision is Live, namely [R], [L] being
    Draft, and a version counter that is one more than before. *)
Theorem approve_draft_exactly_one_live db c db' resp f L R :
  ApproveRevision db c = (db', resp) ->
  status resp = StatusOK ->
  target_flag db c = Some f ->
  target_revision c = Some (Revision.ID R) ->
  NoDup (map Revision.ID (FeatureFlag.Revisions f)) ->
  In L (FeatureFlag.Revisions f) -> Revision.Status L = Live ->
  In R (FeatureFlag.Revisions f) -> Revision.Status R = Draft ->
  GoInt.min_int <= FeatureFlag.Version f < GoInt.max_int ->
  exists f',
    body resp = FeatureFlagBody f'
    /\ target_flag db' c = Some f'
    /\ count_live (FeatureFlag.Revisions f') = 1%nat
    /\ In (Revision.set_Status Live R) (FeatureFlag.Revisions f')
    /\ (forall r, In r (FeatureFlag.Revisions f') ->
          Revision.Status r = Live -> r = Revision.set_Status Live R)
    /\ In (Revision.set_Status Draft L) (FeatureFlag.Revisions f')
    /\ FeatureFlag.Version f' = FeatureFlag.Version f + 1.
Proof.
  intros H Hst Hflag Hrev Hnd HL HLs HR HRs Hv.
  destruct (approved_flag _ _ _ _ _ _ H Hst Hflag Hrev) as [Hbody Hafter].
  exists (approved (Revision.ID R) f).
  rewrite approved_Revisions, approved_Version by done.
  repeat split; try done.
  - by apply count_live_target.
  - rewrite <- (approve_one_target R HRs). by apply in_map.
  - intros r' Hin Hlive. apply in_map_iff in Hin as (r & <- & Hin).
    apply is_live_Status in Hlive. rewrite is_live_approve_one in Hlive.
    apply andb_true_iff in Hlive as [Hid Hdraft].
    apply N.eqb_eq in Hid.
    rewrite (unique_ID _ r R Hnd Hin HR Hid).
    by apply approve_one_target.
  - rewrite <- (approve_one_live (Revision.ID R) L HLs). by apply in_map.
Qed.

(** C2, as the code has it. A successful approval whose target is a
    revision that is Live leaves that revision Draft: the pass demotes
    it and its guard then declines to promote it again; the version
    counter is still one more than before. *)
Theorem approve_live_demotes db c db' resp f index R :
  ApproveRevision db c = (db', resp) ->
  status resp = StatusOK ->
  target_flag db c = Some f ->
  FeatureFlag.Revisions f !! index = Some R ->
  Revision.Status R = Live ->
  target_revision c = Some (Revision.ID R) ->
  GoInt.min_int <= FeatureFlag.Version f < GoInt.max_int ->
  exists f',
    body resp = FeatureFlagBody f'
    /\ target_flag db' c = Some f'
    /\ FeatureFlag.Revisions f' !! index
       = Some (Revision.set_Status Draft R)
    /\ FeatureFlag.Version f' = FeatureFlag.Version f + 1.
Proof.
  intros H Hst Hflag Hlook HRs Hrev Hv.
  destruct (approved_flag _ _ _ _ _ _ H Hst Hflag Hrev) as [Hbody Hafter].
  exists (approved (Revision.ID R) f).
  rewrite approved_Revisions, approved_Version by done.
  repeat split; try done.
  change (map ?g ?l) with (g <$> l).
  rewrite list_lookup_fmap, Hlook. simpl.
  by rewrite approve_one_live.
Qed.

(** C3. A successful approval whose target identifier occurs nowhere
    in the flag's revision list leaves every revision Draft (so none
    is Live, and one that was Live has been demoted) and the version
    counter is still one more than before. *)
Theorem approve_unknown_revision db c db' resp f revisionID :
  ApproveRevision db c = (db', resp) ->
  status resp = StatusOK ->
  target_flag db c = Some f ->
  target_revision c = Some revisionID ->
  ~ In revisionID (map Revision.ID (FeatureFlag.Revisions f)) ->
  GoInt.min_int <= FeatureFlag.Version f < GoInt.max_int ->
  exists f',
    body resp = FeatureFlagBody f'
    /\ target_flag db' c = Some f'
    /\ FeatureFlag.Revisions f'
       = map (Revision.set_Status Draft) (FeatureFlag.Revisions f)
    /\ count_live (FeatureFlag.Revisions f') = 0%nat
    /\ FeatureFlag.Version f' = FeatureFlag.Version f + 1.
Proof.
  intros H Hst Hflag Hrev Hnot Hv.
  destruct (approved_flag _ _ _ _ _ _ H Hst Hflag Hrev) as [Hbody Hafter].
  exists (approved revisionID f).
  rewrite approved_Revisions, approved_Version by done.
  repeat split; try done.
  - apply map_ext_in. intros r Hin. apply approve_one_other.
    intros Heq. apply Hnot. rewrite <- Heq. by apply in_map.
  - apply count_live_none. intros r Hin Heq. exfalso.
    apply Hnot. rewrite <- Heq. by apply in_map.
Qed.

End Approval.

Module ApprovalRuns.

Import Approval.

Lemma approve_draft_exactly_one_live_witness :
  exists f',
    body (ApproveRevision Sample.db Sample.approve_second).2
    = FeatureFlagBody f'
    /\ target_flag (ApproveRevision Sample.db Sample.approve_second).1
         Sample.approve_second = Some f'
    /\ count_live (FeatureFlag.Revisions f') = 1%nat
    /\ In (Revision.set_Status Live Sample.second_revision)
         (FeatureFlag.Revisions f')
    /\ (forall r, In r (FeatureFlag.Revisions f') ->
          Revision.Status r = Live ->
          r = Revision.set_Status Live Sample.second_revision)
    /\ In (Revision.set_Status Draft Sample.first_revision)
         (FeatureFlag.Revisions f')
    /\ FeatureFlag.Version f' = FeatureFlag.Version Sample.dark_mode + 1.
Proof.
  apply (approve_draft_exactly_one_live
           Sample.db Sample.approve_second
           (ApproveRevision Sample.db Sample.approve_second).1
           (ApproveRevision Sample.db Sample.approve_second).2
           Sample.dark_mode Sample.first_revision Sample.second_revision).
  - reflexivity.
  - reflexivity.
  - reflexivity.
  - reflexivity.
  - apply (bool_decide_unpack _). vm_compute. exact I.
  - simpl. tauto.
  - reflexivity.
  - simpl. tauto.
  - reflexivity.
  - vm_compute. split; [discriminate | reflexivity].
Defined.

(** C2, as stated, fails: [alice] approves the Live revision of
    [dark_mode]; the handler answers Ok, the version goes from 1 to 2,
    and the revision that was Live is Draft afterwards, as is every
    other revision. *)
Lemma approve_live_counterexample :
  target_flag Sample.db Sample.approve_first = Some Sample.dark_mode
  /\ FeatureFlag.Revisions Sample.dark_mode !! 0%nat
     = Some Sample.first_revision
  /\ Revision.Status Sample.first_revision = Live
  /\ target_revision Sample.approve_first
     = Some (Revision.ID Sample.first_revision)
  /\ status (ApproveRevision Sample.db Sample.approve_first).2 = StatusOK
  /\ exists f',
       body (ApproveRevision Sample.db Sample.approve_first).2
       = FeatureFlagBody f'
       /\ target_flag (ApproveRevision Sample.db Sample.approve_first).1
            Sample.approve_first = Some f'
       /\ FeatureFlag.Version f' = 2
       /\ (exists r, FeatureFlag.Revisions f' !! 0%nat = Some r
                     /\ Revision.ID r = Revision.ID Sample.first_revision
                     /\ Revision.Status r <> Live)
       /\ forall r, In r (FeatureFlag.Revisions f') ->
                    Revision.Status r <> Live.
Proof.
  repeat split.
  eexists. repeat split.
  - exists (Revision.set_Status Draft Sample.first_revision).
    repeat split. discriminate.
  - intros r [<-|[<-|[]]]; discriminate.
Qed.

Lemma approve_live_demotes_witness :
  exists f',
    body (ApproveRevision Sample.db Sample.approve_first).2
    = FeatureFlagBody f'
    /\ target_flag (ApproveRevision Sample.db Sample.approve_first).1
         Sample.approve_first = Some f'
    /\ FeatureFlag.Revisions f' !! 0%nat
       = Some (Revision.set_Status Draft Sample.first_revision)
    /\ FeatureFlag.Version f' = FeatureFlag.Version Sample.dark_mode + 1.
Proof.
  apply (approve_live_demotes
           Sample.db Sample.approve_first
           (ApproveRevision Sample.db Sample.approve_first).1
           (ApproveRevision Sample.db Sample.approve_first).2
           Sample.dark_mode 0%nat Sample.first_revision).
  - reflexivity.
  - reflexivity.
  - reflexivity.
  - reflexivity.
  - reflexivity.
  - reflexivity.
  - vm_compute. split; [discriminate | reflexivity].
Defined.

Lemma approve_unknown_revision_witness :
  exists f',
    body (ApproveRevision Sample.db Sample.approve_missing).2
    = FeatureFlagBody f'
    /\ target_flag (ApproveRevision Sample.db Sample.approve_missing).1
         Sample.approve_missing = Some f'
    /\ FeatureFlag.Revisions f'
       = map (Revision.set_Status Draft)
           (FeatureFlag.Revisions Sample.dark_mode)
    /\ count_live (FeatureFlag.Revisions f') = 0%nat
    /\ FeatureFlag.Version f' = FeatureFlag.Version Sample.dark_mode + 1.
Proof.
  apply (approve_unknown_revision
           Sample.db Sample.approve_missing
           (ApproveRevision Sample.db Sample.approve_missing).1
           (ApproveRevision Sample.db Sample.approve_missing).2
           Sample.dark_mode 9%N).
  - reflexivity.
  - reflexivity.
  - reflexivity.
  - reflexivity.
  - simpl. intros [H|[H|[]]]; discriminate H.
  - vm_compute. split; [discriminate | reflexivity].
Defined.

End ApprovalRuns.

(** ** Permission check *)

Module Permission.

(** C4. The permission check is a function of the user, the
    organization record and the required level alone, and it answers
    with a boolean: a Collaborator passes the ReadOnly and the
    Collaborator check, a ReadOnly member passes the ReadOnly check
    and fails the Collaborator check, and a user who is not a member
    fails both. *)
Theorem permission_by_role userID organization :
  (membership userID organization = Some Collaborator ->
     UserHasPermission userID organization ReadOnly = true
     /\ UserHasPermission userID organization Collaborator = true)
  /\ (membership userID organization = Some ReadOnly ->
        UserHasPermission userID organization ReadOnly = true
        /\ UserHasPermission userID organization Collaborator = false)
  /\ (membership userID organization = None ->
        UserHasPermission userID organization ReadOnly = false
        /\ UserHasPermission userID organization Collaborator = false).
Proof.
  unfold UserHasPermission.
  split; [|split]; intros Hrole; by rewrite Hrole.
Qed.

Lemma permission_by_role_witness :
  (UserHasPermission Sample.alice Sample.acme ReadOnly = true
   /\ UserHasPermission Sample.alice Sample.acme Collaborator = true)
  /\ (UserHasPermission Sample.bob Sample.acme ReadOnly = true
      /\ UserHasPermission Sample.bob Sample.acme Collaborator = false)
  /\ (UserHasPermission Sample.carol Sample.acme ReadOnly = false
      /\ UserHasPermission Sample.carol Sample.acme Collaborator = false).
Proof.
  split; [|split].
  - apply (proj1 (permission_by_role Sample.alice Sample.acme)).
    reflexivity.
  - apply (proj1 (proj2 (permission_by_role Sample.bob Sample.acme))).
    reflexivity.
  - apply (proj2 (proj2 (permission_by_role Sample.carol Sample.acme))).
    reflexivity.
Defined.

(** Membership is what the member list says. *)
Lemma membership_None userID organization :
  membership userID organization = None <->
  forall m, In m (Organization.Members organization) ->
            Member.UserID m <> userID.
Proof.
  unfold membership. split.
  - destruct (List.find _ _) eqn:Hfind; [done|]. intros _ m Hin Heq.
    apply (find_none _ _ Hfind) in Hin. simpl in Hin.
    apply N.eqb_neq in Hin. done.
  - intros Hall. destruct (List.find _ _) as [m|] eqn:Hfind; [|done].
    apply find_some in Hfind as [Hin Heq]. apply N.eqb_eq in Heq.
    by destruct (Hall m Hin).
Qed.

End Permission.

(** ** Sign-up and sign-in *)

Module UserFacts.

Lemma FindByEmail_registered db email :
  registered db email <->
  exists u, UserModel.FindByEmail db email = Some u.
Proof.
  unfold registered, UserModel.FindByEmail. split.
  - intros (u & Hin & Heq).
    destruct (List.find _ (users db)) as [v|] eqn:Hfind; [eauto|].
    apply (find_none _ _ Hfind) in Hin. simpl in Hin.
    apply String.eqb_neq in Hin. done.
  - intros (u & Hfind). apply find_some in Hfind as [Hin Heq].
    apply String.eqb_eq in Heq. eauto.
Qed.

Lemma FindByEmail_not_registered db email :
  ~ registered db email -> UserModel.FindByEmail db email = None.
Proof.
  intros Hnot. destruct (UserModel.FindByEmail db email) eqn:Hfind; [|done].
  destruct Hnot. apply FindByEmail_registered. eauto.
Qed.

Lemma find_app_None {A} (p : A -> bool) l x :
  List.find p l = None -> p x = true -> List.find p (l ++ [x]) = Some x.
Proof.
  induction l as [|y l IH]; simpl; intros Hnone Hx; [by rewrite Hx|].
  destruct (p y); [done|]. by apply IH.
Qed.

End UserFacts.

Section Accounts.

Import UserFacts.

Variable GenerateFromPassword : string -> string -> option string.
Variable CompareHashAndPassword : string -> string -> bool.
Variable CreateJWT : ObjectID -> Z -> option string.
Variable JWTExpireTime : Z.

(** What the hashing library promises: a hash it generated compares
    equal to the password it was generated from. *)
Hypothesis hash_compares :
  forall salt password hashed,
    GenerateFromPassword salt password = Some hashed ->
    CompareHashAndPassword hashed password = true.

Local Abbreviation PostUser :=
  (Handlers.PostUser GenerateFromPassword CreateJWT JWTExpireTime).
Local Abbreviation PostSignIn :=
  (Handlers.PostSignIn CreateJWT JWTExpireTime CompareHashAndPassword).

(** C5. A sign-up whose email is already registered answers Conflict
    and leaves the store as it was.  A sign-up whose email is not
    registered (the hash and the token being issued) answers Created
    with the new user's fields and a token, and appends one user whose
    stored password is a hash that compares equal to the plaintext of
    the request; from then on, a sign-up with that email answers
    Conflict and leaves the store as it was. *)
Theorem signup_conflict_or_created env db c req :
  Bind c = Some req ->
  (registered db (Email req) ->
     PostUser env db c = (db, CustomError StatusConflict EmailConflictError))
  /\ (~ registered db (Email req) ->
      forall hashed token,
        GenerateFromPassword (Salt env) (Password req) = Some hashed ->
        CreateJWT (NewObjectID env) JWTExpireTime = Some token ->
        exists db' ur,
          PostUser env db c
          = (db', JSON StatusCreated
                    (AuthBody
                       {| Common.ID := NewObjectID env;
                          Common.Email := Email req;
                          Common.FirstName := FirstName req;
                          Common.LastName := LastName req;
                          Common.Token := token |}))
          /\ users db' = users db ++ [ur]
          /\ UserModel.FindByEmail db' (Email req) = Some ur
          /\ User.Password ur = hashed
          /\ CompareHashAndPassword (User.Password ur) (Password req) = true
          /\ forall env',
               PostUser env' db' c
               = (db', CustomError StatusConflict EmailConflictError)).
Proof.
  intros Hbind. unfold Handlers.PostUser. rewrite Hbind.
  split.
  - intros Hreg. apply FindByEmail_registered in Hreg as [u ->]. done.
  - intros Hnot hashed token Hhash Htoken.
    rewrite (FindByEmail_not_registered _ _ Hnot).
    unfold NewUserRecord. rewrite Hhash. simpl. rewrite Htoken.
    do 2 eexists. split; [reflexivity|].
    assert (Hfound :
      UserModel.FindByEmail
        (set_users
           (users db ++
            [User.set_ID (NewObjectID env)
               {| User.ID := 0%N; User.Email := Email req;
                  User.Password := hashed;
                  User.FirstName := FirstName req;
                  User.LastName := LastName req |}]) db) (Email req)
      = Some (User.set_ID (NewObjectID env)
                {| User.ID := 0%N; User.Email := Email req;
                   User.Password := hashed;
                   User.FirstName := FirstName req;
                   User.LastName := LastName req |})).
    { unfold UserModel.FindByEmail. simpl. apply find_app_None.
      - by apply FindByEmail_not_registered.
      - simpl. apply String.eqb_refl. }
    repeat split; try done.
    + simpl. by eapply hash_compares.
    + intros env'. by rewrite Hfound.
Qed.

(** C6. A sign-in whose email is not registered answers NotFound; one
    whose email is registered and whose password does not compare
    equal to the stored hash answers Unauthorized; one whose password
    does (the token being issued) answers Ok with the stored user's
    id, email, first name and last name and the token. *)
Theorem signin_outcomes db c req :
  Bind c = Some req ->
  (~ registered db (SignInEmail req) ->
     PostSignIn db c = CustomError StatusNotFound NotFoundError)
  /\ (forall ur,
        UserModel.FindByEmail db (SignInEmail req) = Some ur ->
        CompareHashAndPassword (User.Password ur) (SignInPassword req)
        = false ->
        PostSignIn db c = CustomError StatusUnauthorized UnauthorizedError)
  /\ (forall ur token,
        UserModel.FindByEmail db (SignInEmail req) = Some ur ->
        CompareHashAndPassword (User.Password ur) (SignInPassword req)
        = true ->
        CreateJWT (User.ID ur) JWTExpireTime = Some token ->
        PostSignIn db c
        = JSON StatusOK
            (AuthBody
               {| Common.ID := User.ID ur;
                  Common.Email := User.Email ur;
                  Common.FirstName := User.FirstName ur;
                  Common.LastName := User.LastName ur;
                  Common.Token := token |})).
Proof.
  intros Hbind. unfold Handlers.PostSignIn. rewrite Hbind.
  repeat split.
  - intros Hnot. by rewrite (FindByEmail_not_registered _ _ Hnot).
  - intros ur Hfind Hcmp. by rewrite Hfind, Hcmp.
  - intros ur token Hfind Hcmp Htoken. by rewrite Hfind, Hcmp, Htoken.
Qed.

End Accounts.

Module AccountRuns.

Import Sample.

Lemma tag_hash_compares salt password hashed :
  tag_hash salt password = Some hashed ->
  tag_check hashed password = true.
Proof. intros [= <-]. apply String.eqb_refl. Qed.

Lemma signup_conflict_or_created_witness :
  PostUser tag_hash fixed_token 3600 env db_with_fizi signup
  = (db_with_fizi, CustomError StatusConflict EmailConflictError)
  /\ exists db' ur,
       PostUser tag_hash fixed_token 3600 env db signup
       = (db', JSON StatusCreated
                 (AuthBody
                    {| Common.ID := NewObjectID env;
                       Common.Email := Email fizi;
                       Common.FirstName := FirstName fizi;
                       Common.LastName := LastName fizi;
                       Common.Token := "token" |}))
       /\ users db' = users db ++ [ur]
       /\ UserModel.FindByEmail db' (Email fizi) = Some ur
       /\ User.Password ur = "$2a$123123"%string
       /\ tag_check (User.Password ur) (Password fizi) = true
       /\ forall env',
            PostUser tag_hash fixed_token 3600 env' db' signup
            = (db', CustomError StatusConflict EmailConflictError).
Proof.
  split.
  - apply (proj1 (signup_conflict_or_created tag_hash tag_check
                    fixed_token 3600 tag_hash_compares
                    env db_with_fizi signup fizi eq_refl)).
    exists fizi_record. split; [simpl; tauto | reflexivity].
  - apply (proj2 (signup_conflict_or_created tag_hash tag_check
                    fixed_token 3600 tag_hash_compares
                    env db signup fizi eq_refl)).
    + intros (u & Hin & _). destruct Hin.
    + reflexivity.
    + reflexivity.
Defined.

Lemma signin_outcomes_witness :
  PostSignIn fixed_token 3600 tag_check db (signin "123123")
  = CustomError StatusNotFound NotFoundError
  /\ PostSignIn fixed_token 3600 tag_check db_with_fizi (signin "wrongpass")
     = CustomError StatusUnauthorized UnauthorizedError
  /\ PostSignIn fixed_token 3600 tag_check db_with_fizi (signin "123123")
     = JSON StatusOK
         (AuthBody
            {| Common.ID := User.ID fizi_record;
               Common.Email := User.Email fizi_record;
               Common.FirstName := User.FirstName fizi_record;
               Common.LastName := User.LastName fizi_record;
               Common.Token := "token" |}).
Proof.
  split; [|split].
  - apply (proj1 (signin_outcomes tag_check fixed_token 3600
                    db (signin "123123") _ eq_refl)).
    intros (u & Hin & _). destruct Hin.
  - apply (proj1 (proj2 (signin_outcomes tag_check fixed_token 3600
                           db_with_fizi (signin "wrongpass") _ eq_refl))
             fizi_record); reflexivity.
  - apply (proj2 (proj2 (signin_outcomes tag_check fixed_token 3600
                           db_with_fizi (signin "123123") _ eq_refl))
             fizi_record "token"%string); reflexivity.
Defined.

End AccountRuns.

(** ** Listing, creating, patching and deleting flags *)

Module FlagFacts.

Lemma FindMany_Some db organizationID page limit featureFlags :
  FeatureFlagModel.FindMany db organizationID page limit
  = Some featureFlags ->
  forall f, In f featureFlags ->
    In f (feature_flags db)
    /\ FeatureFlag.OrganizationID f = organizationID.
Proof.
  unfold FeatureFlagModel.FindMany. intros [= <-] f Hin.
  apply list_elem_of_In in Hin.
  apply subseteq_take, subseteq_drop in Hin.
  apply list_elem_of_In, filter_In in Hin as [Hin Horg].
  by apply N.eqb_eq in Horg.
Qed.

Lemma FindByID_ID db featureFlagID f :
  FeatureFlagModel.FindByID db featureFlagID = Some f ->
  FeatureFlag.ID f = featureFlagID.
Proof.
  unfold FeatureFlagModel.FindByID. intros Hfind.
  apply find_some in Hfind as [_ Heq]. by apply N.eqb_eq in Heq.
Qed.

End FlagFacts.

Section Flags.

Import StoreFacts HandlerFacts FlagFacts.

Variable GetPaginationParams : string -> string -> Z * Z.
Variable NewFeatureFlagRecord :
  Env -> string -> string -> FlagType -> list Rule ->
  ObjectID -> ObjectID -> FeatureFlag.t.

Local Abbreviation ListFeatureFlags :=
  (Handlers.ListFeatureFlags GetPaginationParams).
Local Abbreviation PostFeatureFlag :=
  (Handlers.PostFeatureFlag NewFeatureFlagRecord).

(** C7. A flag listing that answers Ok carries a page of flags of the
    organization of the route, a total that is the number of flags in
    that page, and the page and page size the pagination parameters
    resolved to; when no stored flag belongs to the organization the
    page is empty and the total is 0. *)
Theorem list_total_is_page_length db c :
  status (ListFeatureFlags db c) = StatusOK ->
  exists r organizationID,
    body (ListFeatureFlags db c) = ListBody r
    /\ Total r = Z.of_nat (length (Data r))
    /\ (Page r, PageSize r)
       = GetPaginationParams (QueryParam c "page")
           (QueryParam c "page_size")
    /\ ObjectIDFromHex (Param c "organizationID") = Some organizationID
    /\ (forall f, In f (Data r) ->
          In f (feature_flags db)
          /\ FeatureFlag.OrganizationID f = organizationID)
    /\ ((forall f, In f (feature_flags db) ->
           FeatureFlag.OrganizationID f <> organizationID) ->
        Data r = [] /\ Total r = 0).
Proof.
  unfold Handlers.ListFeatureFlags.
  destruct (GetPaginationParams _ _) as [page limit].
  intros Hst. split_returns Hst; try discriminate Hst.
  match goal with
  | E : FeatureFlagModel.FindMany _ ?o _ _ = Some ?l |- _ =>
      pose proof (FindMany_Some _ _ _ _ _ E) as Hpage;
      rename l into page_flags; rename o into organizationID
  end.
  assert (Hempty :
    (forall f, In f (feature_flags db) ->
       FeatureFlag.OrganizationID f <> organizationID) ->
    page_flags = []).
  { intros Hnone. destruct page_flags as [|f rest]; [done|].
    destruct (Hpage f) as [Hin Horg]; [by left|]. by destruct (Hnone f). }
  eexists. eexists. simpl.
  split; [done|]. split; [done|]. split; [done|]. split; [done|].
  split; [exact Hpage|].
  intros Hnone. by rewrite (Hempty Hnone).
Qed.

(** C9. A flag patch that answers Ok answers with a new revision that
    is Draft, authored by the acting user and carries the value and
    rules of the request; the flag of the route is stored with that
    revision appended after the revisions it had, which are as they
    were, as is its version counter, and no other flag is touched. *)
Theorem patch_appends_draft env db c db' resp :
  PatchFeatureFlag env db c = (db', resp) ->
  status resp = StatusOK ->
  exists userID request featureFlagID f revision f',
    GetObjectIDFromContext c = Some userID
    /\ Bind c = Some request
    /\ ObjectIDFromHex (Param c "featureFlagID") = Some featureFlagID
    /\ FeatureFlagModel.FindByID db featureFlagID = Some f
    /\ body resp = RevisionBody revision
    /\ Revision.Status revision = Draft
    /\ Revision.UserID revision = userID
    /\ Revision.DefaultValue revision = PatchDefaultValue request
    /\ Revision.Rules revision = PatchRules request
    /\ FeatureFlagModel.FindByID db' featureFlagID = Some f'
    /\ FeatureFlag.Revisions f' = FeatureFlag.Revisions f ++ [revision]
    /\ FeatureFlag.Version f' = FeatureFlag.Version f
    /\ (forall id', id' <> featureFlagID ->
          FeatureFlagModel.FindByID db' id'
          = FeatureFlagModel.FindByID db id').
Proof.
  unfold PatchFeatureFlag. intros H Hst.
  split_returns H; injection H as <- <-; try discriminate Hst.
  match goal with
  | E : FeatureFlagModel.UpdateOne _ _ _ = Some _ |- _ =>
      apply UpdateOne_Some in E as (f & Hf & _ & Hafter & Hother & _)
  end.
  eexists _, _, _, f, _, _.
  split; [done|]. split; [done|]. split; [done|]. split; [done|].
  split; [done|]. split; [done|]. split; [done|]. split; [done|].
  split; [done|]. split; [exact Hafter|]. split; [done|].
  split; [done|]. exact Hother.
Qed.

(** C10, as the code has it. For each of the five flag handlers, a
    request of an identified caller whose organization identifier is
    well-formed and matches no stored organization is answered
    InternalServerError, whatever else the request holds, and the
    database is left as it was. *)
Theorem unknown_organization_is_internal_error env db :
  (forall c, identified c -> organization_unknown db c ->
     ListFeatureFlags db c
     = CustomError StatusInternalServerError InternalServerError)
  /\ (forall c, identified c -> organization_unknown db c ->
        PostFeatureFlag env db c
        = (db, CustomError StatusInternalServerError InternalServerError))
  /\ (forall c, identified c -> organization_unknown db c ->
        PatchFeatureFlag env db c
        = (db, CustomError StatusInternalServerError InternalServerError))
  /\ (forall c, identified c -> organization_unknown db c ->
        ApproveRevision db c
        = (db, CustomError StatusInternalServerError InternalServerError))
  /\ (forall c, identified c -> organization_unknown db c ->
        DeleteFeatureFlag env db c
        = (db, CustomError StatusInternalServerError InternalServerError)).
Proof.
  unfold identified, organization_unknown.
  split; [|split; [|split; [|split]]];
    intros c [userID Huser] (organizationID & Hhex & Hnone).
  - unfold Handlers.ListFeatureFlags.
    destruct (GetPaginationParams _ _) as [page limit].
    by rewrite Huser, Hhex, Hnone.
  - unfold Handlers.PostFeatureFlag. by rewrite Huser, Hhex, Hnone.
  - unfold PatchFeatureFlag. by rewrite Huser, Hhex, Hnone.
  - unfold ApproveRevision. by rewrite Huser, Hhex, Hnone.
  - unfold DeleteFeatureFlag. by rewrite Huser, Hhex, Hnone.
Qed.

End Flags.

Module FlagRuns.

Import Sample.

Lemma list_total_is_page_length_witness :
  exists r organizationID,
    body (ListFeatureFlags first_page db_without_flags listing) = ListBody r
    /\ Total r = Z.of_nat (length (Data r))
    /\ (Page r, PageSize r)
       = first_page (QueryParam listing "page")
           (QueryParam listing "page_size")
    /\ ObjectIDFromHex (Param listing "organizationID")
       = Some organizationID
    /\ (forall f, In f (Data r) ->
          In f (feature_flags db_without_flags)
          /\ FeatureFlag.OrganizationID f = organizationID)
    /\ ((forall f, In f (feature_flags db_without_flags) ->
           FeatureFlag.OrganizationID f <> organizationID) ->
        Data r = [] /\ Total r = 0).
Proof.
  apply (list_total_is_page_length first_page db_without_flags listing).
  reflexivity.
Defined.

(** The listing of the handler's own scenario: page 1 of 10 of an
    organization without flags. *)
Example list_without_flags :
  ListFeatureFlags first_page db_without_flags listing
  = JSON StatusOK
      (ListBody {| Data := []; Page := 1; PageSize := 10; Total := 0 |}).
Proof. reflexivity. Qed.

(** The total counts the page, not the collection: two flags stored,
    one per page, total 1. *)
Example list_total_is_not_the_count :
  ListFeatureFlags one_per_page db_two_flags listing
  = JSON StatusOK
      (ListBody {| Data := [dark_mode]; Page := 1; PageSize := 1;
                   Total := 1 |}).
Proof. reflexivity. Qed.

(** C8. The patch handler does not run the validator its request type
    is tagged for: a patch by [alice] whose only rule is the zero rule
    fails the tag of [PatchFeatureFlagRequest], yet the handler
    answers Ok and the revision with that rule is appended to
    [dark_mode]; the creation handler answers the same rules with
    BadRequest and stores nothing. *)
Theorem patch_skips_validation :
  validate_PatchFeatureFlagRequest zero_rule_patch = false
  /\ PatchFeatureFlag env db patching
     = (set_feature_flags
          [FeatureFlag.set_Revisions
             [first_revision; second_revision;
              NewRevisionRecord env "true" [[]] alice] dark_mode] db,
        JSON StatusOK (RevisionBody (NewRevisionRecord env "true" [[]] alice)))
  /\ validate_PostFeatureFlagRequest zero_rule_post = false
  /\ PostFeatureFlag blank_flag env db posting
     = (db, CustomError StatusBadRequest BadRequestError).
Proof. repeat split. Qed.

Lemma patch_appends_draft_witness :
  exists userID request featureFlagID f revision f',
    GetObjectIDFromContext proposing = Some userID
    /\ Bind proposing = Some request
    /\ ObjectIDFromHex (Param proposing "featureFlagID")
       = Some featureFlagID
    /\ FeatureFlagModel.FindByID db featureFlagID = Some f
    /\ body (PatchFeatureFlag env db proposing).2 = RevisionBody revision
    /\ Revision.Status revision = Draft
    /\ Revision.UserID revision = userID
    /\ Revision.DefaultValue revision = PatchDefaultValue request
    /\ Revision.Rules revision = PatchRules request
    /\ FeatureFlagModel.FindByID
         (PatchFeatureFlag env db proposing).1 featureFlagID = Some f'
    /\ FeatureFlag.Revisions f' = FeatureFlag.Revisions f ++ [revision]
    /\ FeatureFlag.Version f' = FeatureFlag.Version f
    /\ (forall id', id' <> featureFlagID ->
          FeatureFlagModel.FindByID
            (PatchFeatureFlag env db proposing).1 id'
          = FeatureFlagModel.FindByID db id').
Proof.
  apply (patch_appends_draft env db proposing
           (PatchFeatureFlag env db proposing).1
           (PatchFeatureFlag env db proposing).2).
  - reflexivity.
  - reflexivity.
Defined.

Lemma stray_identified {Req} (bound : option Req) :
  identified (stray_request (Some alice) bound).
Proof. by exists alice. Qed.

Lemma stray_unknown {Req} user (bound : option Req) :
  organization_unknown db (stray_request user bound).
Proof. exists 255%N. by split. Qed.

Lemma unknown_organization_is_internal_error_witness :
  ListFeatureFlags first_page db (stray_request (Some alice) (Some tt))
  = CustomError StatusInternalServerError InternalServerError
  /\ PostFeatureFlag blank_flag env db
       (stray_request (Some alice) (Some zero_rule_post))
     = (db, CustomError StatusInternalServerError InternalServerError)
  /\ PatchFeatureFlag env db
       (stray_request (Some alice) (Some sound_patch))
     = (db, CustomError StatusInternalServerError InternalServerError)
  /\ ApproveRevision db (stray_request (Some alice) (Some tt))
     = (db, CustomError StatusInternalServerError InternalServerError)
  /\ DeleteFeatureFlag env db (stray_request (Some alice) (Some tt))
     = (db, CustomError StatusInternalServerError InternalServerError).
Proof.
  destruct (unknown_organization_is_internal_error
              first_page blank_flag env db)
    as (Hlist & Hpost & Hpatch & Happrove & Hdelete).
  split; [|split; [|split; [|split]]].
  - apply Hlist; [apply stray_identified | apply stray_unknown].
  - apply Hpost; [apply stray_identified | apply stray_unknown].
  - apply Hpatch; [apply stray_identified | apply stray_unknown].
  - apply Happrove; [apply stray_identified | apply stray_unknown].
  - apply Hdelete; [apply stray_identified | apply stray_unknown].
Defined.

(** C10, as stated, fails: the organization of the route is
    well-formed and not stored, the caller is not identified, and each
    of the five handlers answers Unauthorized, not
    InternalServerError. *)
Lemma unknown_organization_counterexample :
  organization_unknown db (stray_request None (Some tt))
  /\ ListFeatureFlags first_page db (stray_request None (Some tt))
     = CustomError StatusUnauthorized UnauthorizedError
  /\ PostFeatureFlag blank_flag env db
       (stray_request None (Some zero_rule_post))
     = (db, CustomError StatusUnauthorized UnauthorizedError)
  /\ PatchFeatureFlag env db (stray_request None (Some sound_patch))
     = (db, CustomError StatusUnauthorized UnauthorizedError)
  /\ ApproveRevision db (stray_request None (Some tt))
     = (db, CustomError StatusUnauthorized UnauthorizedError)
  /\ DeleteFeatureFlag env db (stray_request None (Some tt))
     = (db, CustomError StatusUnauthorized UnauthorizedError)
  /\ status (CustomError StatusUnauthorized UnauthorizedError)
     <> StatusInternalServerError.
Proof.
  split; [apply stray_unknown|]. repeat split. discriminate.
Qed.

End FlagRuns.

(** ** More on the approval pass *)

Module PassFacts.

Import ApprovalPass ApprovalFacts.

(** X1. The approval pass changes nothing but statuses: the list keeps
    its length and its order, and every revision keeps its identifier,
    author, default value, rules and creation time. *)
Theorem approve_touches_status_only revisionID (revisions : list Revision.t) :
  length (approve_range revisionID revisions) = length revisions
  /\ map Revision.ID (approve_range revisionID revisions)
     = map Revision.ID revisions
  /\ map (Revision.set_Status Draft) (approve_range revisionID revisions)
     = map (Revision.set_Status Draft) revisions.
Proof.
  rewrite approve_range_map. split; [by rewrite length_map|].
  rewrite !map_map. split; apply map_ext; intros r.
  - apply approve_one_ID.
  - unfold approve_one. destruct (Revision.Status r); [|done].
    by destruct (N.eqb (Revision.ID r) revisionID).
Qed.

(** X2. After the pass a revision is Live exactly when it carries the
    target identifier and was Draft before; position by position. *)
Theorem approve_live_iff revisionID (revisions : list Revision.t) :
  Forall2
    (fun before after =>
       Revision.Status after = Live
       <-> Revision.ID before = revisionID
           /\ Revision.Status before = Draft)
    revisions (approve_range revisionID revisions).
Proof.
  rewrite approve_range_map.
  induction revisions as [|r revisions IH]; simpl; constructor; [|done].
  rewrite <- is_live_Status, is_live_approve_one, andb_true_iff.
  rewrite N.eqb_eq. unfold is_live.
  destruct (Revision.Status r); simpl; intuition congruence.
Qed.

(** X3. Whatever the statuses were, several Live revisions included,
    after the pass at most one revision is Live when identifiers do not
    repeat. *)
Theorem approve_at_most_one_live revisionID (revisions : list Revision.t) :
  NoDup (map Revision.ID revisions) ->
  (count_live (approve_range revisionID revisions) <= 1)%nat.
Proof.
  intros Hnd. rewrite approve_range_map.
  destruct (List.find
              (fun r => N.eqb (Revision.ID r) revisionID && negb (is_live r))
              revisions) as [R|] eqn:Hfind.
  - apply find_some in Hfind as [Hin Hcond].
    apply andb_true_iff in Hcond as [Hid Hdraft].
    apply N.eqb_eq in Hid. subst revisionID.
    rewrite (count_live_target revisions R Hnd Hin); [done|].
    unfold is_live in Hdraft. by destruct (Revision.Status R).
  - rewrite count_live_none; [lia|]. intros r Hin Hid.
    pose proof (find_none _ _ Hfind r Hin) as Hcond. simpl in Hcond.
    apply N.eqb_eq in Hid. rewrite Hid in Hcond. simpl in Hcond.
    apply is_live_Status. by destruct (is_live r).
Qed.

Lemma approve_at_most_one_live_witness :
  (count_live
     (approve_range 9%N
        [Sample.first_revision;
         Revision.set_Status Live Sample.second_revision]) <= 1)%nat.
Proof.
  apply approve_at_most_one_live.
  apply (bool_decide_unpack _). vm_compute. exact I.
Defined.

(** X4. Approving the same target twice gives the revisions with the
    target identifier the status they had at the start and leaves every
    other revision Draft. *)
Theorem approve_twice revisionID (revisions : list Revision.t) :
  approve_range revisionID (approve_range revisionID revisions)
  = map (fun r => if N.eqb (Revision.ID r) revisionID then r
                  else Revision.set_Status Draft r)
      revisions.
Proof.
  rewrite !approve_range_map, map_map. apply map_ext.
  intros [id user st value rules created]. unfold approve_one. simpl.
  destruct st; simpl; destruct (N.eqb id revisionID) eqn:Heq; simpl;
    by rewrite ?Heq.
Qed.

(** X5. After an approval of one target, an approval of a different
    target leaves exactly the revisions with the second identifier Live
    and all others Draft, whatever the statuses were at the start. *)
Theorem approve_after_other first second (revisions : list Revision.t) :
  first <> second ->
  approve_range second (approve_range first revisions)
  = map (fun r => Revision.set_Status
                    (if N.eqb (Revision.ID r) second then Live else Draft) r)
      revisions.
Proof.
  intros Hne. rewrite !approve_range_map, map_map. apply map_ext.
  intros [id user st value rules created]. unfold approve_one. simpl.
  destruct (N.eqb_spec id second) as [->|Hsecond].
  - destruct (N.eqb_spec second first) as [->|_]; [done|].
    destruct st; simpl; by rewrite N.eqb_refl.
  - destruct st; simpl.
    + destruct (N.eqb id first); simpl; [done|].
      by destruct (N.eqb_spec id second).
    + by destruct (N.eqb_spec id second).
Qed.

Lemma approve_after_other_witness :
  approve_range 2%N
    (approve_range 1%N (FeatureFlag.Revisions Sample.dark_mode))
  = map (fun r => Revision.set_Status
                    (if N.eqb (Revision.ID r) 2%N then Live else Draft) r)
      (FeatureFlag.Revisions Sample.dark_mode).
Proof. apply approve_after_other. discriminate. Defined.

End PassFacts.

(** ** What the flag handlers refuse and what they leave alone *)

(** Follow the handler in the goal along every early return. *)
Ltac walk_returns :=
  repeat match goal with
    | |- context [match ?e with _ => _ end] =>
        let E := fresh "E" in destruct e eqn:E
    end.

(** Read back what a store operation that succeeded has done. *)
Ltac read_store :=
  repeat match goal with
    | E : FeatureFlagModel.UpdateOne _ _ _ = Some _ |- _ =>
        apply StoreFacts.UpdateOne_Some in E
          as (? & ? & ? & ? & ? & ? & ?)
    | E : FeatureFlagModel.InsertOne _ _ _ = Some _ |- _ =>
        unfold FeatureFlagModel.InsertOne in E; injection E as <- <-
    | E : UserModel.InsertOne _ _ _ = Some _ |- _ =>
        unfold UserModel.InsertOne in E; injection E as <- <-
    end.

Module IdFacts.

Lemma ObjectIDFromHex_length s id :
  ObjectIDFromHex s = Some id -> String.length s = 24%nat.
Proof.
  unfold ObjectIDFromHex.
  destruct (Nat.eqb_spec (String.length s) 24); [done|discriminate].
Qed.

Lemma ObjectIDFromHex_short s :
  String.length s <> 24%nat -> ObjectIDFromHex s = None.
Proof.
  intros Hlen. destruct (ObjectIDFromHex s) eqn:Hhex; [|done].
  by apply ObjectIDFromHex_length in Hhex.
Qed.

End IdFacts.

Section Guarantees.

Import IdFacts.

Variable GetPaginationParams : string -> string -> Z * Z.
Variable NewFeatureFlagRecord :
  Env -> string -> string -> FlagType -> list Rule ->
  ObjectID -> ObjectID -> FeatureFlag.t.
Variable GenerateFromPassword : string -> string -> option string.
Variable CreateJWT : ObjectID -> Z -> option string.
Variable JWTExpireTime : Z.

Local Abbreviation ListFeatureFlags :=
  (Handlers.ListFeatureFlags GetPaginationParams).
Local Abbreviation PostFeatureFlag :=
  (Handlers.PostFeatureFlag NewFeatureFlagRecord).
Local Abbreviation PostUser :=
  (Handlers.PostUser GenerateFromPassword CreateJWT JWTExpireTime).

(** X6. The four flag handlers that write do so only when they answer
    with their success status: with any other answer the database is
    returned as it was received. *)
Theorem writes_only_on_success env db :
  (forall c, (PostFeatureFlag env db c).1 = db
             \/ status (PostFeatureFlag env db c).2 = StatusCreated)
  /\ (forall c, (PatchFeatureFlag env db c).1 = db
                \/ status (PatchFeatureFlag env db c).2 = StatusOK)
  /\ (forall c, (ApproveRevision db c).1 = db
                \/ status (ApproveRevision db c).2 = StatusOK)
  /\ (forall c, (DeleteFeatureFlag env db c).1 = db
                \/ status (DeleteFeatureFlag env db c).2 = StatusNoContent).
Proof.
  split; [|split; [|split]]; intros c.
  - unfold Handlers.PostFeatureFlag. walk_returns; simpl; auto.
  - unfold PatchFeatureFlag. walk_returns; simpl; auto.
  - unfold ApproveRevision. walk_returns; simpl; auto.
  - unfold DeleteFeatureFlag. walk_returns; simpl; auto.
Qed.

(** X7. No flag handler touches the users or the organizations, and
    the sign-up handler touches neither the organizations nor the
    flags, whatever they answer. *)
Theorem handlers_keep_other_collections env db :
  (forall c, users (PostFeatureFlag env db c).1 = users db
             /\ organizations (PostFeatureFlag env db c).1
                = organizations db)
  /\ (forall c, users (PatchFeatureFlag env db c).1 = users db
                /\ organizations (PatchFeatureFlag env db c).1
                   = organizations db)
  /\ (forall c, users (ApproveRevision db c).1 = users db
                /\ organizations (ApproveRevision db c).1
                   = organizations db)
  /\ (forall c, users (DeleteFeatureFlag env db c).1 = users db
                /\ organizations (DeleteFeatureFlag env db c).1
                   = organizations db)
  /\ (forall c, organizations (PostUser env db c).1 = organizations db
                /\ feature_flags (PostUser env db c).1 = feature_flags db).
Proof.
  split; [|split; [|split; [|split]]]; intros c.
  - unfold Handlers.PostFeatureFlag. walk_returns; read_store; by simpl.
  - unfold PatchFeatureFlag. walk_returns; read_store; by simpl.
  - unfold ApproveRevision. walk_returns; read_store; by simpl.
  - unfold DeleteFeatureFlag. walk_returns; read_store; by simpl.
  - unfold Handlers.PostUser. walk_returns; read_store; by simpl.
Qed.

(** X8. A caller whose role in the organization of the route is below
    the level a handler asks for (ReadOnly to list, Collaborator to
    create, patch, approve and delete) is answered Forbidden, whatever
    the flag identifier and the body are, and nothing is written. *)
Theorem forbidden_below_level env db :
  (forall c, lacks_permission db c ReadOnly ->
     ListFeatureFlags db c = CustomError StatusForbidden ForbiddenError)
  /\ (forall c, lacks_permission db c Collaborator ->
        PostFeatureFlag env db c
        = (db, CustomError StatusForbidden ForbiddenError))
  /\ (forall c, lacks_permission db c Collaborator ->
        PatchFeatureFlag env db c
        = (db, CustomError StatusForbidden ForbiddenError))
  /\ (forall c, lacks_permission db c Collaborator ->
        ApproveRevision db c
        = (db, CustomError StatusForbidden ForbiddenError))
  /\ (forall c, lacks_permission db c Collaborator ->
        DeleteFeatureFlag env db c
        = (db, CustomError StatusForbidden ForbiddenError)).
Proof.
  unfold lacks_permission.
  split; [|split; [|split; [|split]]];
    intros c (userID & organizationID & organization
              & Huser & Hhex & Hfound & Hperm).
  - unfold Handlers.ListFeatureFlags.
    destruct (GetPaginationParams _ _) as [page limit].
    by rewrite Huser, Hhex, Hfound, Hperm.
  - unfold Handlers.PostFeatureFlag. by rewrite Huser, Hhex, Hfound, Hperm.
  - unfold PatchFeatureFlag. by rewrite Huser, Hhex, Hfound, Hperm.
  - unfold ApproveRevision. by rewrite Huser, Hhex, Hfound, Hperm.
  - unfold DeleteFeatureFlag. by rewrite Huser, Hhex, Hfound, Hperm.
Qed.

(** X9. For an identified caller, an organization identifier that is
    not 24 characters long (the empty one of a route without the
    parameter included) is answered BadRequest by each of the five
    handlers, before the store is consulted, and nothing is written. *)
Theorem short_organization_is_bad_request env db :
  (forall c, identified c ->
     String.length (Param c "organizationID") <> 24%nat ->
     ListFeatureFlags db c = CustomError StatusBadRequest BadRequestError)
  /\ (forall c, identified c ->
        String.length (Param c "organizationID") <> 24%nat ->
        PostFeatureFlag env db c
        = (db, CustomError StatusBadRequest BadRequestError))
  /\ (forall c, identified c ->
        String.length (Param c "organizationID") <> 24%nat ->
        PatchFeatureFlag env db c
        = (db, CustomError StatusBadRequest BadRequestError))
  /\ (forall c, identified c ->
        String.length (Param c "organizationID") <> 24%nat ->
        ApproveRevision db c
        = (db, CustomError StatusBadRequest BadRequestError))
  /\ (forall c, identified c ->
        String.length (Param c "organizationID") <> 24%nat ->
        DeleteFeatureFlag env db c
        = (db, CustomError StatusBadRequest BadRequestError)).
Proof.
  unfold identified.
  split; [|split; [|split; [|split]]];
    intros c [userID Huser] Hlen; apply ObjectIDFromHex_short in Hlen.
  - unfold Handlers.ListFeatureFlags.
    destruct (GetPaginationParams _ _) as [page limit].
    by rewrite Huser, Hlen.
  - unfold Handlers.PostFeatureFlag. by rewrite Huser, Hlen.
  - unfold PatchFeatureFlag. by rewrite Huser, Hlen.
  - unfold ApproveRevision. by rewrite Huser, Hlen.
  - unfold DeleteFeatureFlag. by rewrite Huser, Hlen.
Qed.

End Guarantees.

(** ** When each flag handler succeeds *)

Module Verdicts.

Import HandlerFacts.



Lemma target_flag_intro {Req} db (c : Context Req) featureFlagID f :
  ObjectIDFromHex (Param c "featureFlagID") = Some featureFlagID ->
  FeatureFlagModel.FindByID db featureFlagID = Some f ->
  target_flag db c = Some f.
Proof. unfold target_flag. by intros ->. Qed.

Lemma target_flag_elim {Req} db (c : Context Req) f :
  target_flag db c = Some f ->
  exists featureFlagID,
    ObjectIDFromHex (Param c "featureFlagID") = Some featureFlagID
    /\ FeatureFlagModel.FindByID db featureFlagID = Some f.
Proof.
  unfold target_flag.
  destruct (ObjectIDFromHex (Param c "featureFlagID")); [eauto | done].
Qed.




End Verdicts.

Module StoreShape.

Import FeatureFlagModel.

Lemma update_first_length id u fs :
  length (update_first id u fs) = length fs.
Proof.
  induction fs as [|f fs IH]; simpl; [done|].
  destruct (has_id id f); simpl; by rewrite ?IH.
Qed.

Lemma organization_lookup_frame db db' id :
  organizations db' = organizations db ->
  OrganizationModel.FindByID db' id = OrganizationModel.FindByID db id.
Proof. unfold OrganizationModel.FindByID. by intros ->. Qed.

End StoreShape.

Section FlagLifecycle.

Import HandlerFacts Verdicts StoreShape.

Variable GetPaginationParams : string -> string -> Z * Z.
Variable NewFeatureFlagRecord :
  Env -> string -> string -> FlagType -> list Rule ->
  ObjectID -> ObjectID -> FeatureFlag.t.

Local Abbreviation ListFeatureFlags :=
  (Handlers.ListFeatureFlags GetPaginationParams).
Local Abbreviation PostFeatureFlag :=
  (Handlers.PostFeatureFlag NewFeatureFlagRecord).



(** X12. A creation that answers Created has appended exactly one flag
    to the collection, after the flags that were there: the record built
    from the request, the organization of the route and the caller,
    under the new identifier. *)
Theorem post_flag_created env db c db' resp :
  PostFeatureFlag env db c = (db', resp) ->
  status resp = StatusCreated ->
  exists userID organizationID request,
    GetObjectIDFromContext c = Some userID
    /\ ObjectIDFromHex (Param c "organizationID") = Some organizationID
    /\ Bind c = Some request
    /\ feature_flags db'
       = feature_flags db
         ++ [FeatureFlag.set_ID (NewObjectID env)
               (NewFeatureFlagRecord env (Name request)
                  (DefaultValue request) (Type_ request) (Rules request)
                  organizationID userID)].
Proof.
  unfold Handlers.PostFeatureFlag. intros H Hst.
  split_returns H; injection H as <- <-; try discriminate Hst.
  read_store. eexists _, _, _. by repeat split.
Qed.

(** X14. A deletion that answers NoContent has set the deletion time of
    the flag of the route to the time of the request and nothing else:
    the flag is still found under its identifier with its revisions,
    version, name and other timestamps, the collection has as many
    flags as before, and every other flag is as it was. *)
Theorem delete_sets_only_deleted_at env db c db' resp :
  DeleteFeatureFlag env db c = (db', resp) ->
  status resp = StatusNoContent ->
  exists featureFlagID f,
    ObjectIDFromHex (Param c "featureFlagID") = Some featureFlagID
    /\ FeatureFlagModel.FindByID db featureFlagID = Some f
    /\ FeatureFlagModel.FindByID db' featureFlagID
       = Some (FeatureFlag.set_Timestamps
                 (Storage.set_DeletedAt (Now env) (FeatureFlag.Timestamps f))
                 f)
    /\ length (feature_flags db') = length (feature_flags db)
    /\ (forall id', id' <> featureFlagID ->
          FeatureFlagModel.FindByID db' id'
          = FeatureFlagModel.FindByID db id')
    /\ body resp = NullBody.
Proof.
  unfold DeleteFeatureFlag. intros H Hst.
  split_returns H; injection H as <- <-; try discriminate Hst.
  match goal with
  | E : FeatureFlagModel.UpdateOne _ _ _ = Some _ |- _ =>
      pose proof E as Hshape;
      apply StoreFacts.UpdateOne_Some in E
        as (f & Hf & _ & Hafter & Hother & _)
  end.
  unfold FeatureFlagModel.UpdateOne in Hshape. rewrite Hf in Hshape.
  injection Hshape as <- _.
  eexists _, f. repeat split; try done.
  simpl. apply update_first_length.
Qed.

(** X15. The handlers never compare the organization a flag belongs to
    with the organization of the route: a Collaborator of one
    organization deletes, and approves revisions of, a stored flag of
    another organization. *)
Theorem foreign_flag_is_writable env db c organizationID f revisionID :
  has_permission db c Collaborator ->
  ObjectIDFromHex (Param c "organizationID") = Some organizationID ->
  target_flag db c = Some f ->
  FeatureFlag.OrganizationID f <> organizationID ->
  target_revision c = Some revisionID ->
  status (DeleteFeatureFlag env db c).2 = StatusNoContent
  /\ target_flag (DeleteFeatureFlag env db c).1 c
     = Some (FeatureFlag.set_Timestamps
               (Storage.set_DeletedAt (Now env) (FeatureFlag.Timestamps f)) f)
  /\ (ApproveRevision db c).2
     = JSON StatusOK (FeatureFlagBody (approved revisionID f))
  /\ target_flag (ApproveRevision db c).1 c = Some (approved revisionID f).
Proof.
  intros (u & o & org & Hu & Ho & Horg & Hperm) Hroute Hflag _ Hrev.
  pose proof Hflag as Hflag'.
  apply target_flag_elim in Hflag' as (fid & Hfid & Hf).
  split; [|split].
  - unfold DeleteFeatureFlag. rewrite Hu, Ho, Horg, Hperm, Hfid. simpl.
    by destruct (StoreFacts.UpdateOne_found db fid
                   (FeatureFlagModel.SetDeletedAt (Now env)) f Hf)
      as [db' ->].
  - unfold DeleteFeatureFlag. rewrite Hu, Ho, Horg, Hperm, Hfid. simpl.
    destruct (StoreFacts.UpdateOne_found db fid
                (FeatureFlagModel.SetDeletedAt (Now env)) f Hf)
      as [db' Hupd].
    rewrite Hupd. simpl.
    apply StoreFacts.UpdateOne_Some in Hupd as (f0 & Hf0 & _ & Hafter & _).
    rewrite Hf in Hf0. injection Hf0 as <-.
    by eapply target_flag_intro.
  - destruct (ApproveRevision db c) as [db' resp] eqn:H.
    destruct (Success.ApproveRevision_succeeds
                db c u o org fid revisionID f Hu Ho Horg Hperm Hfid Hrev Hf)
      as [db'' Hok].
    rewrite H in Hok. injection Hok as <- ->. simpl.
    split; [done|].
    by apply (Approval.approved_flag db c db'
                (JSON StatusOK (FeatureFlagBody (approved revisionID f)))
                f revisionID).
Qed.

(** X16. A flag that was deleted still takes patches: after a deletion
    answered NoContent, a patch of the same flag by a Collaborator
    answers Ok and appends its revision to the deleted flag, whose
    deletion time stays. *)
Theorem patch_after_delete env env' db c c' featureFlagID f request userID :
  has_permission db c Collaborator ->
  ObjectIDFromHex (Param c "featureFlagID") = Some featureFlagID ->
  FeatureFlagModel.FindByID db featureFlagID = Some f ->
  has_permission db c' Collaborator ->
  GetObjectIDFromContext c' = Some userID ->
  ObjectIDFromHex (Param c' "featureFlagID") = Some featureFlagID ->
  Bind c' = Some request ->
  status (DeleteFeatureFlag env db c).2 = StatusNoContent
  /\ status (PatchFeatureFlag env' (DeleteFeatureFlag env db c).1 c').2
     = StatusOK
  /\ FeatureFlagModel.FindByID
       (PatchFeatureFlag env' (DeleteFeatureFlag env db c).1 c').1
       featureFlagID
     = Some (FeatureFlag.set_Revisions
               (FeatureFlag.Revisions f
                ++ [NewRevisionRecord env' (PatchDefaultValue request)
                      (PatchRules request) userID])
               (FeatureFlag.set_Timestamps
                  (Storage.set_DeletedAt (Now env) (FeatureFlag.Timestamps f))
                  f)).
Proof.
  intros (u & o & org & Hu & Ho & Horg & Hperm) Hfid Hf
         (u' & o' & org' & Hu' & Ho' & Horg' & Hperm') Huser Hfid' Hbind.
  rewrite Huser in Hu'. injection Hu' as <-.
  unfold DeleteFeatureFlag. rewrite Hu, Ho, Horg, Hperm, Hfid. simpl.
  destruct (StoreFacts.UpdateOne_found db featureFlagID
              (FeatureFlagModel.SetDeletedAt (Now env)) f Hf) as [db1 Hupd].
  rewrite Hupd. simpl. split; [done|].
  apply StoreFacts.UpdateOne_Some in Hupd
    as (f0 & Hf0 & _ & Hafter & _ & _ & Horgs).
  rewrite Hf in Hf0. injection Hf0 as <-.
  rewrite <- (organization_lookup_frame db db1 o' Horgs) in Horg'.
  destruct (Success.PatchFeatureFlag_succeeds env' db1 c' userID o' org'
              featureFlagID request _ Huser Ho' Horg' Hperm' Hfid' Hbind
              Hafter) as (db2 & -> & Hstored).
  by split.
Qed.

(** X17. An approval that answers Ok has written the version and the
    revisions of the flag of the route and nothing else: the flag keeps
    its identifier, organization, creator, name, type and timestamps,
    the collection has as many flags as before, and every other flag is
    as it was. *)
Theorem approve_keeps_the_rest db c db' resp :
  ApproveRevision db c = (db', resp) ->
  status resp = StatusOK ->
  exists featureFlagID f f',
    ObjectIDFromHex (Param c "featureFlagID") = Some featureFlagID
    /\ FeatureFlagModel.FindByID db featureFlagID = Some f
    /\ FeatureFlagModel.FindByID db' featureFlagID = Some f'
    /\ FeatureFlag.ID f' = FeatureFlag.ID f
    /\ FeatureFlag.OrganizationID f' = FeatureFlag.OrganizationID f
    /\ FeatureFlag.UserID f' = FeatureFlag.UserID f
    /\ FeatureFlag.Name f' = FeatureFlag.Name f
    /\ FeatureFlag.Type_ f' = FeatureFlag.Type_ f
    /\ FeatureFlag.Timestamps f' = FeatureFlag.Timestamps f
    /\ length (feature_flags db') = length (feature_flags db)
    /\ (forall id', id' <> featureFlagID ->
          FeatureFlagModel.FindByID db' id'
          = FeatureFlagModel.FindByID db id').
Proof.
  unfold ApproveRevision. intros H Hst.
  split_returns H; injection H as <- <-; try discriminate Hst.
  match goal with
  | E : FeatureFlagModel.UpdateOne _ _ _ = Some _ |- _ =>
      pose proof E as Hshape;
      apply StoreFacts.UpdateOne_Some in E
        as (f & Hf & _ & Hafter & Hother & _)
  end.
  unfold FeatureFlagModel.UpdateOne in Hshape. rewrite Hf in Hshape.
  injection Hshape as <- _.
  eexists _, f, _. split; [done|]. split; [done|]. split; [exact Hafter|].
  repeat split; try done.
  simpl. apply update_first_length.
Qed.

End FlagLifecycle.

Section SignUpGuarantees.

Import UserFacts.

Variable GenerateFromPassword : string -> string -> option string.
Variable CreateJWT : ObjectID -> Z -> option string.
Variable JWTExpireTime : Z.

Local Abbreviation PostUser :=
  (Handlers.PostUser GenerateFromPassword CreateJWT JWTExpireTime).

(** X10. The sign-up handler stores the user before it asks for the
    token: when the token cannot be issued it answers
    InternalServerError, yet the user is stored, and every later
    sign-up with that email answers Conflict. *)
Theorem signup_without_token env db c req hashed :
  Bind c = Some req ->
  ~ registered db (Email req) ->
  GenerateFromPassword (Salt env) (Password req) = Some hashed ->
  CreateJWT (NewObjectID env) JWTExpireTime = None ->
  exists db' ur,
    PostUser env db c
    = (db', CustomError StatusInternalServerError InternalServerError)
    /\ users db' = users db ++ [ur]
    /\ User.Email ur = Email req
    /\ User.Password ur = hashed
    /\ forall env',
         PostUser env' db' c
         = (db', CustomError StatusConflict EmailConflictError).
Proof.
  intros Hbind Hnot Hhash Htoken. unfold Handlers.PostUser.
  rewrite Hbind, (FindByEmail_not_registered _ _ Hnot).
  unfold NewUserRecord. rewrite Hhash. simpl. rewrite Htoken.
  eexists _, _. split; [done|]. split; [done|]. split; [done|].
  split; [done|]. intros env'.
  unfold UserModel.FindByEmail at 1. simpl.
  rewrite (find_app_None _ _ _ (FindByEmail_not_registered _ _ Hnot));
    [done|]. simpl. apply String.eqb_refl.
Qed.


End SignUpGuarantees.

Section ExampleListing.

Variable GetPaginationParams : string -> string -> Z * Z.
Variable Cursor : Type.
Variable Find : Z -> Z -> option Cursor.
Variable Next : Cursor -> bool * Cursor.
Variable All : Cursor -> option (list Examples.ExampleResponse).

Local Abbreviation GetExamples :=
  (Examples.GetExamples GetPaginationParams Cursor Find Next All).

(** X18. The example listing answers Ok or InternalServerError and
    nothing else, it asks no caller and no permission; an Ok answer
    carries the page and page size the query resolved to and a total
    that is the number of records in the page; and a cursor without a
    first document is answered Ok with no record and total 0, not with
    an error. *)
Theorem examples_page c :
  (Examples.status (GetExamples c) = StatusOK
   \/ Examples.status (GetExamples c) = StatusInternalServerError)
  /\ (forall r,
        Examples.body (GetExamples c) = Examples.PageBody r ->
        Examples.status (GetExamples c) = StatusOK
        /\ Examples.Total r = Z.of_nat (length (Examples.Data r))
        /\ (Examples.Page r, Examples.PageSize r)
           = GetPaginationParams (QueryParam c "page")
               (QueryParam c "page_size"))
  /\ (forall page limit cursor,
        GetPaginationParams (QueryParam c "page") (QueryParam c "page_size")
        = (page, limit) ->
        Find (GoInt.wrap ((page - 1) * limit)) limit = Some cursor ->
        (Next cursor).1 = false ->
        GetExamples c
        = Examples.mkExampleAnswer StatusOK
            (Examples.PageBody
               (Examples.mkExampleListResponse [] page limit 0))).
Proof.
  unfold Examples.GetExamples. split; [|split].
  - walk_returns; simpl; auto.
  - intros r. walk_returns; simpl; intros Hbody; try discriminate Hbody;
      injection Hbody as <-; by simpl.
  - intros page limit cursor -> -> Hnext.
    destruct (Next cursor) as [more rest]. simpl in Hnext. by subst more.
Qed.

End ExampleListing.

Module GuaranteeRuns.

Import Sample.

Lemma alice_collaborates {Req} (bound : option Req) hex :
  has_permission db (request (Some alice) hex bound) Collaborator.
Proof. exists alice, 16%N, acme. by repeat split. Qed.

Lemma bob_reads_only {Req} (bound : option Req) :
  lacks_permission db (request (Some bob) "" bound) Collaborator.
Proof. exists bob, 16%N, acme. by repeat split. Qed.

Lemma carol_is_no_member :
  lacks_permission db (request (Some carol) "" (Some tt)) ReadOnly.
Proof. exists carol, 16%N, acme. by repeat split. Qed.

Lemma forbidden_below_level_witness :
  ListFeatureFlags first_page db (request (Some carol) "" (Some tt))
  = CustomError StatusForbidden ForbiddenError
  /\ PostFeatureFlag blank_flag env db (request (Some bob) "" (Some sound_post))
     = (db, CustomError StatusForbidden ForbiddenError)
  /\ PatchFeatureFlag env db (request (Some bob) "" (Some sound_patch))
     = (db, CustomError StatusForbidden ForbiddenError)
  /\ ApproveRevision db (request (Some bob) "" (Some tt))
     = (db, CustomError StatusForbidden ForbiddenError)
  /\ DeleteFeatureFlag env db (request (Some bob) "" (Some tt))
     = (db, CustomError StatusForbidden ForbiddenError).
Proof.
  destruct (forbidden_below_level first_page blank_flag env db)
    as (Hlist & Hpost & Hpatch & Happrove & Hdelete).
  split; [|split; [|split; [|split]]].
  - apply Hlist, carol_is_no_member.
  - apply Hpost, bob_reads_only.
  - apply Hpatch, bob_reads_only.
  - apply Happrove, bob_reads_only.
  - apply Hdelete, bob_reads_only.
Defined.

Lemma short_identified {Req} (bound : option Req) :
  identified (short_request (Some alice) bound).
Proof. by exists alice. Qed.

Lemma short_organization_is_bad_request_witness :
  ListFeatureFlags first_page db (short_request (Some alice) (Some tt))
  = CustomError StatusBadRequest BadRequestError
  /\ PostFeatureFlag blank_flag env db
       (short_request (Some alice) (Some sound_post))
     = (db, CustomError StatusBadRequest BadRequestError)
  /\ PatchFeatureFlag env db (short_request (Some alice) (Some sound_patch))
     = (db, CustomError StatusBadRequest BadRequestError)
  /\ ApproveRevision db (short_request (Some alice) (Some tt))
     = (db, CustomError StatusBadRequest BadRequestError)
  /\ DeleteFeatureFlag env db (short_request (Some alice) (Some tt))
     = (db, CustomError StatusBadRequest BadRequestError).
Proof.
  destruct (short_organization_is_bad_request first_page blank_flag env db)
    as (Hlist & Hpost & Hpatch & Happrove & Hdelete).
  split; [|split; [|split; [|split]]].
  - apply Hlist; [apply short_identified | discriminate].
  - apply Hpost; [apply short_identified | discriminate].
  - apply Hpatch; [apply short_identified | discriminate].
  - apply Happrove; [apply short_identified | discriminate].
  - apply Hdelete; [apply short_identified | discriminate].
Defined.

Lemma signup_without_token_witness :
  exists db' ur,
    PostUser tag_hash no_token 3600 env db signup
    = (db', CustomError StatusInternalServerError InternalServerError)
    /\ users db' = users db ++ [ur]
    /\ User.Email ur = Email fizi
    /\ User.Password ur = "$2a$123123"%string
    /\ forall env',
         PostUser tag_hash no_token 3600 env' db' signup
         = (db', CustomError StatusConflict EmailConflictError).
Proof.
  apply (signup_without_token tag_hash no_token 3600 env db signup fizi).
  - reflexivity.
  - intros (u & Hin & _). destruct Hin.
  - reflexivity.
  - reflexivity.
Defined.


Lemma post_flag_created_witness :
  exists userID organizationID request,
    GetObjectIDFromContext creating = Some userID
    /\ ObjectIDFromHex (Param creating "organizationID")
       = Some organizationID
    /\ Bind creating = Some request
    /\ feature_flags (PostFeatureFlag blank_flag env db creating).1
       = feature_flags db
         ++ [FeatureFlag.set_ID (NewObjectID env)
               (blank_flag env (Name request) (DefaultValue request)
                  (Type_ request) (Rules request) organizationID userID)].
Proof.
  apply (post_flag_created blank_flag env db creating
           (PostFeatureFlag blank_flag env db creating).1
           (PostFeatureFlag blank_flag env db creating).2).
  - reflexivity.
  - reflexivity.
Defined.

Lemma delete_sets_only_deleted_at_witness :
  exists featureFlagID f,
    ObjectIDFromHex (Param deleting "featureFlagID") = Some featureFlagID
    /\ FeatureFlagModel.FindByID db featureFlagID = Some f
    /\ FeatureFlagModel.FindByID (DeleteFeatureFlag env db deleting).1
         featureFlagID
       = Some (FeatureFlag.set_Timestamps
                 (Storage.set_DeletedAt (Now env) (FeatureFlag.Timestamps f))
                 f)
    /\ length (feature_flags (DeleteFeatureFlag env db deleting).1)
       = length (feature_flags db)
    /\ (forall id', id' <> featureFlagID ->
          FeatureFlagModel.FindByID (DeleteFeatureFlag env db deleting).1 id'
          = FeatureFlagModel.FindByID db id')
    /\ body (DeleteFeatureFlag env db deleting).2 = NullBody.
Proof.
  apply (delete_sets_only_deleted_at env db deleting
           (DeleteFeatureFlag env db deleting).1
           (DeleteFeatureFlag env db deleting).2).
  - reflexivity.
  - reflexivity.
Defined.

Lemma alice_on_roadmap {Req} (bound : option Req) :
  has_permission db_with_roadmap (roadmap_request (Some alice) bound)
    Collaborator.
Proof. exists alice, 16%N, acme. by repeat split. Qed.

Lemma foreign_flag_is_writable_witness :
  status (DeleteFeatureFlag env db_with_roadmap
            (roadmap_request (Some alice) (Some tt))).2 = StatusNoContent
  /\ target_flag
       (DeleteFeatureFlag env db_with_roadmap
          (roadmap_request (Some alice) (Some tt))).1
       (roadmap_request (Some alice) (Some tt))
     = Some (FeatureFlag.set_Timestamps
               (Storage.set_DeletedAt (Now env)
                  (FeatureFlag.Timestamps roadmap)) roadmap)
  /\ (ApproveRevision db_with_roadmap
        (roadmap_request (Some alice) (Some tt))).2
     = JSON StatusOK (FeatureFlagBody (approved 2%N roadmap))
  /\ target_flag
       (ApproveRevision db_with_roadmap
          (roadmap_request (Some alice) (Some tt))).1
       (roadmap_request (Some alice) (Some tt))
     = Some (approved 2%N roadmap).
Proof.
  apply (foreign_flag_is_writable env db_with_roadmap
           (roadmap_request (Some alice) (Some tt)) 16%N roadmap 2%N).
  - apply alice_on_roadmap.
  - reflexivity.
  - reflexivity.
  - discriminate.
  - reflexivity.
Defined.

Lemma patch_after_delete_witness :
  status (DeleteFeatureFlag env db deleting).2 = StatusNoContent
  /\ status (PatchFeatureFlag later (DeleteFeatureFlag env db deleting).1
               proposing).2
     = StatusOK
  /\ FeatureFlagModel.FindByID
       (PatchFeatureFlag later (DeleteFeatureFlag env db deleting).1
          proposing).1
       241%N
     = Some (FeatureFlag.set_Revisions
               (FeatureFlag.Revisions dark_mode
                ++ [NewRevisionRecord later (PatchDefaultValue sound_patch)
                      (PatchRules sound_patch) alice])
               (FeatureFlag.set_Timestamps
                  (Storage.set_DeletedAt (Now env)
                     (FeatureFlag.Timestamps dark_mode))
                  dark_mode)).
Proof.
  apply (patch_after_delete env later db deleting proposing 241%N
           dark_mode sound_patch alice).
  - apply alice_collaborates.
  - reflexivity.
  - reflexivity.
  - apply alice_collaborates.
  - reflexivity.
  - reflexivity.
  - reflexivity.
Defined.

Lemma approve_keeps_the_rest_witness :
  exists featureFlagID f f',
    ObjectIDFromHex (Param approve_second "featureFlagID")
    = Some featureFlagID
    /\ FeatureFlagModel.FindByID db featureFlagID = Some f
    /\ FeatureFlagModel.FindByID (ApproveRevision db approve_second).1
         featureFlagID = Some f'
    /\ FeatureFlag.ID f' = FeatureFlag.ID f
    /\ FeatureFlag.OrganizationID f' = FeatureFlag.OrganizationID f
    /\ FeatureFlag.UserID f' = FeatureFlag.UserID f
    /\ FeatureFlag.Name f' = FeatureFlag.Name f
    /\ FeatureFlag.Type_ f' = FeatureFlag.Type_ f
    /\ FeatureFlag.Timestamps f' = FeatureFlag.Timestamps f
    /\ length (feature_flags (ApproveRevision db approve_second).1)
       = length (feature_flags db)
    /\ (forall id', id' <> featureFlagID ->
          FeatureFlagModel.FindByID (ApproveRevision db approve_second).1 id'
          = FeatureFlagModel.FindByID db id').
Proof.
  apply (approve_keeps_the_rest db approve_second
           (ApproveRevision db approve_second).1
           (ApproveRevision db approve_second).2).
  - reflexivity.
  - reflexivity.
Defined.

End GuaranteeRuns.

Section SignUpVerdict.

Import UserFacts.

Variable GenerateFromPassword : string -> string -> option string.
Variable CreateJWT : ObjectID -> Z -> option string.
Variable JWTExpireTime : Z.

Local Abbreviation PostUser :=
  (Handlers.PostUser GenerateFromPassword CreateJWT JWTExpireTime).


End SignUpVerdict.
